(** * PGVCL Smart Assistant (src/ab.py): a shallow embedding and its properties

    The program is a Streamlit script: the whole file is executed from top
    to bottom on every user interaction ("run").  A run reads the widget
    values supplied by the browser, reads and updates [st.session_state],
    touches the upload folder, may call the remote generation endpoint and
    draws elements.  The embedding keeps that shape:

    - [Inputs]   the widget values of one run;
    - [Store]    the session dictionary and the outside world (environment
                 variables, upload folder, remote endpoint);
    - [Event]    what a run draws and which remote calls it makes, in order;
    - [M]        a small monad: store passing, an event log, and the three
                 ways a Python block can be left early (an exception,
                 [st.rerun()], [st.stop()]).  *)

From stdpp Require Import base strings gmap list fin_maps.
From Stdlib Require Import Strings.Ascii Strings.Byte.

Set Default Proof Using "Type".

(** ** Python values *)

Abbreviation bytes := (list byte).

(** An exception is represented by the text [str(e)] that the program
    interpolates into its messages. *)
Definition exn : Type := string.

Definition nl : string := String "010"%char EmptyString.
Definition dq : string := String "034"%char EmptyString.

(** Python truthiness ([if x:]): empty strings, empty byte strings, empty
    lists and [None] are false. *)
Class Truthy (A : Type) := truthy : A → bool.

#[export] Instance str_truthy : Truthy string :=
  λ s, match s with EmptyString => false | String _ _ => true end.
#[export] Instance list_truthy {A} : Truthy (list A) :=
  λ l, match l with [] => false | _ :: _ => true end.
#[export] Instance option_truthy {A} `{Truthy A} : Truthy (option A) :=
  λ o, match o with None => false | Some a => truthy a end.

(** [s.endswith(suffix)] *)
Definition endswith (s suffix : string) : bool :=
  let n := String.length s in
  let m := String.length suffix in
  (m <=? n) && String.eqb (String.substring (n - m) m s) suffix.

(** [s.capitalize()] on ASCII text (the only roles stored are "user" and
    "model"). *)
Definition upper (c : ascii) : ascii :=
  let n := nat_of_ascii c in
  if (97 <=? n) && (n <=? 122) then ascii_of_nat (n - 32) else c.
Definition lower (c : ascii) : ascii :=
  let n := nat_of_ascii c in
  if (65 <=? n) && (n <=? 90) then ascii_of_nat (n + 32) else c.
Fixpoint str_map (f : ascii → ascii) (s : string) : string :=
  match s with
  | EmptyString => EmptyString
  | String c r => String (f c) (str_map f r)
  end.
Definition capitalize (s : string) : string :=
  match s with
  | EmptyString => EmptyString
  | String c r => String (upper c) (str_map lower r)
  end.

(** [f"{x}"] for an optional string: [None] prints as "None". *)
Definition fmt (o : option string) : string :=
  match o with Some s => s | None => "None" end.

(** ** Data *)

(** An entry of [st.session_state["chat_history"]]:
    [{"role": ..., "content": ...}]. *)
Record ChatMessage := { role : string; content : string }.

(** The request built by [generate_response]. *)
Inductive Part :=
  | Blob (mime_type : string) (data : bytes)
  | Text (text : string).
Record Content := { req_role : string; parts : list Part }.

(** What the code looks at in the object returned by
    [model.generate_content]: [resolve()] may raise, [prompt_feedback] may be
    falsy ([None] here), its [block_reason] may be [None], and the [text]
    property may raise. *)
Record PromptFeedback := { block_reason : option string }.
Record Response := {
  resolve : option exn;
  prompt_feedback : option PromptFeedback;
  response_text : exn + string }.

(** The client handle kept in [st.session_state["model"]]. *)
Record GenerativeModel := { model_name : string }.

Record UploadedFile := { name : string; file_data : bytes }.

(** [os.path.join(folder, entry)]: the upload folder is flat and file names
    are single path components, so a path is a folder with an entry name. *)
Definition Path : Type := string * string.
Definition os_path_join (folder entry : string) : Path := (folder, entry).

Inductive IOOp := open_rb (p : Path) | open_wb (p : Path) | os_remove_op (p : Path).

(** The world outside the script.  [fs] maps each existing folder to its
    entries; [io_fault] lets the operating system refuse an operation (for
    instance for lack of permission); [endpoint] is the behaviour of the
    remote generation service for a model name and a request. *)
Record World := {
  environ : gmap string string;
  fs : gmap string (gmap string bytes);
  io_fault : IOOp → option exn;
  endpoint : string → list Content → exn + Response }.

(** [st.session_state]: a dictionary with four possible keys; a field is
    [None] while its key is absent. *)
Record SessionState := {
  model : option GenerativeModel;
  chat_history : option (list ChatMessage);
  authentication_status : option (option bool);
  document_data : option (option bytes) }.

Definition fresh_session : SessionState :=
  {| model := None; chat_history := None;
     authentication_status := None; document_data := None |}.

Record Store := { session : SessionState; world : World }.

(** The widget values of one run. [text] and [clicked] are indexed by the
    widget key (the label where the code gives no key). *)
Record Inputs := {
  radio : string;
  text : string → string;
  clicked : string → bool;
  uploaded_file : option UploadedFile;
  selected : string }.

(** ** What a run shows and does *)

Module st.
Inductive Element :=
  | set_page_config (page_title page_icon layout : string)
  | title (body : string)
  | subheader (body : string)
  | write (body : string)
  | markdown (body : string)
  | info (body : string)
  | success (body : string)
  | warning (body : string)
  | error (body : string)
  | text_input (label : string) (password : bool)
  | button (label key : string)
  | radio (label : string) (options : list string)
  | selectbox (label : string) (options : list string)
  | file_uploader (label : string) (type : list string)
  | columns (n : nat)
  | spinner (body : string).
End st.

Inductive Container := MainArea | Sidebar | Column (k : nat).

Inductive Event :=
  | Draw (c : Container) (e : st.Element)
  | Configure (api_key : option string)
  | GenerateContent (model_name : string) (contents : list Content).

(** ** The monad of a run *)

Inductive Ctl (A : Type) :=
  | Ret (a : A)
  | Raise (e : exn)
  | RerunException
  | StopException.
Arguments Ret {A} a.
Arguments Raise {A} e.
Arguments RerunException {A}.
Arguments StopException {A}.

Definition M (A : Type) : Type := Store → Ctl A * Store * list Event.

Definition returns {A} (m : M A) (s : Store) : Ctl A := (m s).1.1.
Definition final {A} (m : M A) (s : Store) : Store := (m s).1.2.
Definition out {A} (m : M A) (s : Store) : list Event := (m s).2.

#[export] Instance M_ret : MRet M := λ A a s, (Ret a, s, []).
#[export] Instance M_bind : MBind M := λ A B k m s,
  match m s with
  | (Ret a, s1, o1) => let '(c, s2, o2) := k a s1 in (c, s2, o1 ++ o2)
  | (Raise e, s1, o1) => (Raise e, s1, o1)
  | (RerunException, s1, o1) => (RerunException, s1, o1)
  | (StopException, s1, o1) => (StopException, s1, o1)
  end.

(** [try: body except Exception as e: handler e].  [st.rerun()] and
    [st.stop()] raise Streamlit's script-control exceptions, which are not
    subclasses of [Exception] and pass through. *)
Definition try_except {A} (body : M A) (handler : exn → M A) : M A := λ s,
  match body s with
  | (Raise e, s1, o1) => let '(c, s2, o2) := handler e s1 in (c, s2, o1 ++ o2)
  | r => r
  end.

Definition raise {A} (e : exn) : M A := λ s, (Raise e, s, []).
Definition st_rerun {A} : M A := λ s, (RerunException, s, []).
Definition st_stop {A} : M A := λ s, (StopException, s, []).
Definition emit (e : Event) : M unit := λ s, (Ret tt, s, [e]).
Definition draw (e : st.Element) : M unit := emit (Draw MainArea e).
Definition draw_sidebar (e : st.Element) : M unit := emit (Draw Sidebar e).

(** [with container: body]: what [body] draws in the main area lands in
    [container]. *)
Definition relocate (c : Container) (e : Event) : Event :=
  match e with
  | Draw MainArea x => Draw c x
  | _ => e
  end.
Definition within {A} (c : Container) (body : M A) : M A := λ s,
  let '(r, s1, o1) := body s in (r, s1, relocate c <$> o1).

(** [for x in l: body x] *)
Fixpoint for_each {A} (l : list A) (body : A → M unit) : M unit :=
  match l with
  | [] => mret tt
  | x :: l' => body x;; for_each l' body
  end.

(** *** Session dictionary *)

Definition get_session : M SessionState := λ s, (Ret (session s), s, []).
Definition put_session (ss : SessionState) : M unit := λ s,
  (Ret tt, {| session := ss; world := world s |}, []).
Definition get_world : M World := λ s, (Ret (world s), s, []).
Definition put_world (w : World) : M unit := λ s,
  (Ret tt, {| session := session s; world := w |}, []).

(** [st.session_state[key]] raises [KeyError] on an absent key. *)
Definition getitem {A} (field : SessionState → option A) (key : string) : M A :=
  ss ← get_session;
  match field ss with
  | Some v => mret v
  | None => raise ("KeyError: " +:+ key)
  end.

Definition set_model (v : GenerativeModel) (ss : SessionState) : SessionState :=
  {| model := Some v; chat_history := chat_history ss;
     authentication_status := authentication_status ss;
     document_data := document_data ss |}.
Definition set_chat_history (v : list ChatMessage) (ss : SessionState) : SessionState :=
  {| model := model ss; chat_history := Some v;
     authentication_status := authentication_status ss;
     document_data := document_data ss |}.
Definition set_authentication_status (v : option bool) (ss : SessionState) : SessionState :=
  {| model := model ss; chat_history := chat_history ss;
     authentication_status := Some v;
     document_data := document_data ss |}.
Definition set_document_data (v : option bytes) (ss : SessionState) : SessionState :=
  {| model := model ss; chat_history := chat_history ss;
     authentication_status := authentication_status ss;
     document_data := Some v |}.

Definition setitem (upd : SessionState → SessionState) : M unit :=
  ss ← get_session; put_session (upd ss).

(** [st.session_state["chat_history"].append(m)] *)
Definition chat_history_append (m : ChatMessage) : M unit :=
  h ← getitem chat_history "chat_history";
  setitem (set_chat_history (h ++ [m])).

(** *** Widgets: draw the element, return the browser's value *)

Definition st_sidebar_text_input (i : Inputs) (label : string) (password : bool) : M string :=
  draw_sidebar (st.text_input label password);; mret (text i label).
Definition st_text_input (i : Inputs) (label key : string) : M string :=
  draw (st.text_input label false);; mret (text i key).
Definition st_sidebar_button (i : Inputs) (label : string) : M bool :=
  draw_sidebar (st.button label label);; mret (clicked i label).
Definition st_button (i : Inputs) (label key : string) : M bool :=
  draw (st.button label key);; mret (clicked i key).

(** A choice widget returns one of its options, the first one by default. *)
Definition choose (options : list string) (value : string) : string :=
  if decide (value ∈ options) then value else default EmptyString (head options).
Definition st_sidebar_radio (i : Inputs) (label : string) (options : list string) : M string :=
  draw_sidebar (st.radio label options);; mret (choose options (radio i)).
Definition st_selectbox (i : Inputs) (label : string) (options : list string) : M string :=
  draw (st.selectbox label options);; mret (choose options (selected i)).
Definition st_file_uploader (i : Inputs) (label : string) (type : list string)
  : M (option UploadedFile) :=
  draw (st.file_uploader label type);; mret (uploaded_file i).

(** *** Operating system *)

Definition os_getenv (key : string) : M (option string) :=
  w ← get_world; mret (environ w !! key).

Definition os_path_exists (folder : string) : M bool :=
  w ← get_world; mret (bool_decide (is_Some (fs w !! folder))).

Definition set_fs (f : gmap string (gmap string bytes)) (w : World) : World :=
  {| environ := environ w; fs := f; io_fault := io_fault w; endpoint := endpoint w |}.

Definition os_makedirs (folder : string) : M unit :=
  w ← get_world; put_world (set_fs (<[folder := ∅]> (fs w)) w).

(** [os.listdir(folder)]: every entry once, in the directory's own order. *)
Definition os_listdir (folder : string) : M (list string) :=
  w ← get_world;
  match fs w !! folder with
  | Some dir => mret (elements (dom dir))
  | None => raise ("FileNotFoundError: " +:+ folder)
  end.

(** [with open(path, "rb") as f: f.read()] *)
Definition read_file (p : Path) : M bytes :=
  w ← get_world;
  match io_fault w (open_rb p) with
  | Some e => raise e
  | None =>
      match fs w !! p.1 ≫= (.!! p.2) with
      | Some d => mret d
      | None => raise ("FileNotFoundError: " +:+ p.2)
      end
  end.

(** [with open(path, "wb") as f: f.write(data)]: creates the entry or
    replaces its contents. *)
Definition write_file (p : Path) (d : bytes) : M unit :=
  w ← get_world;
  match io_fault w (open_wb p) with
  | Some e => raise e
  | None =>
      match fs w !! p.1 with
      | Some dir => put_world (set_fs (<[p.1 := <[p.2 := d]> dir]> (fs w)) w)
      | None => raise ("FileNotFoundError: " +:+ p.1)
      end
  end.

(** [os.remove(path)] *)
Definition os_remove (p : Path) : M unit :=
  w ← get_world;
  match io_fault w (os_remove_op p) with
  | Some e => raise e
  | None =>
      match fs w !! p.1 with
      | Some dir =>
          match dir !! p.2 with
          | Some _ => put_world (set_fs (<[p.1 := delete p.2 dir]> (fs w)) w)
          | None => raise ("FileNotFoundError: " +:+ p.2)
          end
      | None => raise ("FileNotFoundError: " +:+ p.1)
      end
  end.

(** *** Remote endpoint *)

(** [model.generate_content(contents)]: the call is logged, then the
    endpoint answers or raises. *)
Definition generate_content (m : GenerativeModel) (contents : list Content) : M Response :=
  emit (GenerateContent (model_name m) contents);;
  w ← get_world;
  match endpoint w (model_name m) contents with
  | inl e => raise e
  | inr r => mret r
  end.

Definition response_resolve (r : Response) : M unit :=
  match resolve r with Some e => raise e | None => mret tt end.

Definition get_text (r : Response) : M string :=
  match response_text r with inl e => raise e | inr t => mret t end.

(** ** The program *)

(** *** Configuration (lines 9-49) *)

Definition PAGE_TITLE : string := "PGVCL Smart Assistant".
Definition PRIMARY_COLOR : string := "#007bff".
Definition SECONDARY_COLOR : string := "#6c757d".
Definition MODEL_NAME : string := "gemini-1.5-pro-latest".
Definition UPLOAD_FOLDER : string := "uploaded_docs".

Definition SYSTEM_PROMPT : string :=
  "You are a helpful assistant designed to answer questions specifically about the provided PGVCL (Paschim Gujarat Vij Company Limited) document." +:+ nl +:+
  nl +:+
  "*   Answer questions to the point and concisely." +:+ nl +:+
  "*   If you are unsure about what the user is asking or the question is ambiguous, ask for clarification." +:+ nl +:+
  "*   **ONLY answer questions related to the content of the provided PGVCL document.** If the user asks about something else, respond with: " +:+ dq +:+
  "I am the PGVCL chatbot. I can only answer questions regarding the content of the document selected." +:+ dq +:+ nl +:+
  "*   If the information is not found in the document, respond with " +:+ dq +:+
  "I am sorry, but I am unable to find the answer to your question in the provided document." +:+ dq +:+ nl.

Definition ADMIN_USERNAME : string := "admin".
Definition ADMIN_PASSWORD : string := "password123".

(** *** Authentication (lines 51-71) *)

Definition check_password (i : Inputs) : M bool :=
  status ← getitem authentication_status "authentication_status";
  match status with
  | None =>
      username ← st_sidebar_text_input i "Username" false;
      password ← st_sidebar_text_input i "Password" true;
      login ← st_sidebar_button i "Login";
      if login : bool then
        if String.eqb username ADMIN_USERNAME && String.eqb password ADMIN_PASSWORD then
          setitem (set_authentication_status (Some true));;
          draw_sidebar (st.success "Logged in as admin");;
          st_rerun
        else
          setitem (set_authentication_status (Some false));;
          draw_sidebar (st.error "Incorrect Username/Password");;
          mret false
      else mret false
  | Some true => mret true
  | Some false => mret false
  end.

(** *** Documents (lines 73-81) *)

Definition load_document (document_path : Path) : M (option bytes) :=
  try_except
    (document_data ← read_file document_path;
     mret (Some document_data))
    (λ e, draw (st.error ("Error loading document: " +:+ e));;
          mret None).

(** *** Answer generation (lines 84-112) *)

Definition NO_DOCUMENT : string :=
  "Please select a PGVCL document to ask questions about.".

Definition generate_response (prompt : string) (model : GenerativeModel)
    (document_data : option bytes) (system_prompt : option string) : M (option string) :=
  try_except
    (if truthy document_data then
       let contents :=
         [ {| req_role := "user";
              parts := [ Blob "application/pdf" (default [] document_data);
                         Text (fmt system_prompt +:+ nl +:+ prompt) ] |} ] in
       response ← generate_content model contents;
       response_resolve response;;
       match prompt_feedback response with
       | Some feedback =>
           match block_reason feedback with
           | Some reason =>
               draw (st.warning ("The query was blocked: " +:+ reason));;
               mret None
           | None => answer ← get_text response; mret (Some answer)
           end
       | None => answer ← get_text response; mret (Some answer)
       end
     else mret (Some NO_DOCUMENT))
    (λ e, draw (st.error ("Error generating response: " +:+ e));;
          mret None).

(** *** The document listing (lines 131 and 155-157):
    [[f for f in os.listdir(UPLOAD_FOLDER) if f.endswith(".pdf")]] *)

Definition list_documents : M (list string) :=
  entries ← os_listdir UPLOAD_FOLDER;
  mret (filter (λ f, endswith f ".pdf") entries).

(** *** Admin page (lines 116-147) *)

(** The body of the loop over the listed files (lines 134-145). *)
Definition document_row (i : Inputs) (filename : string) : M unit :=
  draw (st.columns 2);;
  within (Column 1) (draw (st.write filename));;
  within (Column 2)
    (delete ← st_button i "Delete" ("delete_" +:+ filename);
     if delete : bool then
       let file_path := os_path_join UPLOAD_FOLDER filename in
       try_except
         (os_remove file_path;;
          draw (st.success ("File '" +:+ filename +:+ "' deleted."));;
          st_rerun)
         (λ e, draw (st.error ("Error deleting file: " +:+ e)))
     else mret tt).

Definition admin_page (i : Inputs) : M unit :=
  draw (st.title "Admin Side - Document Management");;
  uploaded_file ← st_file_uploader i "Upload PGVCL Document (PDF)" ["pdf"];
  match uploaded_file with
  | Some f =>
      let file_path := os_path_join UPLOAD_FOLDER (name f) in
      try_except
        (write_file file_path (file_data f);;
         draw (st.success ("File '" +:+ name f +:+ "' saved to '" +:+ UPLOAD_FOLDER +:+ "'")))
        (λ e, draw (st.error ("Error saving file: " +:+ e)))
  | None => mret tt
  end;;
  draw (st.subheader "Existing Documents");;
  files ← list_documents;
  if truthy files then for_each files (document_row i)
  else draw (st.info "No documents uploaded yet.").

(** *** User page (lines 151-212) *)

Definition chat_line (color role content : string) : string :=
  "<div style=" +:+ dq +:+ "text-align: left; margin-bottom: 10px;" +:+ dq +:+ ">" +:+
  "<strong style=" +:+ dq +:+ "color: " +:+ color +:+ ";" +:+ dq +:+ ">" +:+
  role +:+ ":</strong> " +:+ content +:+ "</div>".

(** The body of the loop over the transcript (lines 197-210). *)
Definition render_message (message : ChatMessage) : M unit :=
  let role := capitalize (role message) in
  let content := content message in
  if String.eqb role "User" then
    draw (st.markdown (chat_line PRIMARY_COLOR role content))
  else
    draw (st.markdown (chat_line SECONDARY_COLOR role content)).

Definition user_page (i : Inputs) : M unit :=
  draw (st.title "User Side - PGVCL Smart Assistant");;
  available_documents ← list_documents;
  within Sidebar
    (draw (st.subheader "Document Selection");;
     selected_document ← st_selectbox i "Select a PGVCL Document:"
                           (EmptyString :: available_documents);
     document_data ←
       (if truthy selected_document then
          let document_path := os_path_join UPLOAD_FOLDER selected_document in
          document_data ← load_document document_path;
          match document_data with
          | None => draw (st.error "Failed to load selected document.")
          | Some _ => mret tt
          end;;
          mret document_data
        else mret None);
     setitem (set_document_data document_data));;
  ss ← get_session;
  match mjoin (document_data ss) with
  | Some _ =>
      user_prompt ← st_text_input i
                      "Ask your question about the selected PGVCL document:"
                      "prompt_input";
      (if truthy user_prompt then
         gemini_response ←
           (draw (st.spinner "Generating response...");;
            model ← getitem model "model";
            document_data ← getitem document_data "document_data";
            generate_response user_prompt model document_data (Some SYSTEM_PROMPT));
         if truthy gemini_response then
           chat_history_append
             {| role := "user"; content := user_prompt |};;
           chat_history_append
             {| role := "model"; content := default EmptyString gemini_response |}
         else mret tt
       else mret tt);;
      draw (st.subheader "Chat History");;
      history ← getitem chat_history "chat_history";
      for_each history render_message
  | None =>
      draw (st.info "Please select a PGVCL document from the sidebar to ask questions about.")
  end.

(** *** The script, top to bottom *)

Definition API_KEY_MISSING : string :=
  "Please set the GOOGLE_AI_API_KEY environment variable.".

(** Lines 6-19.  [load_dotenv()] has run: the variables of the .env file
    are part of [environ]. *)
Definition configure_api_key : M unit :=
  api_key ← os_getenv "GOOGLE_AI_API_KEY";
  (if negb (truthy api_key) then
     draw (st.error API_KEY_MISSING);;
     st_stop
   else mret tt);;
  emit (Configure api_key).

(** Lines 21-31: each key is created on the first run only. *)
Definition init_session_state : M unit :=
  ss ← get_session;
  (if model ss is None
   then setitem (set_model {| model_name := MODEL_NAME |}) else mret tt);;
  ss ← get_session;
  (if chat_history ss is None
   then setitem (set_chat_history []) else mret tt);;
  ss ← get_session;
  (if authentication_status ss is None
   then setitem (set_authentication_status None) else mret tt).

(** Lines 33-36. *)
Definition init_document_storage : M unit :=
  folder_exists ← os_path_exists UPLOAD_FOLDER;
  if negb folder_exists then os_makedirs UPLOAD_FOLDER else mret tt.

(** Lines 215-224. *)
Definition main_app_flow (i : Inputs) : M unit :=
  draw (st.set_page_config PAGE_TITLE ":bulb:" "wide");;
  page ← st_sidebar_radio i "Select Page:" ["User Side"; "Admin Side"];
  if String.eqb page "Admin Side" then
    authenticated ← check_password i;
    if authenticated : bool then admin_page i else mret tt
  else user_page i.

Definition script (i : Inputs) : M unit :=
  configure_api_key;;
  init_session_state;;
  init_document_storage;;
  main_app_flow i.

(** ** Vocabulary of the properties *)

(** The requests a run sends to the remote endpoint, in order. *)
Definition remote_calls (o : list Event) : list (string * list Content) :=
  omap (λ e, match e with GenerateContent n c => Some (n, c) | _ => None end) o.

(** The three outcomes of an answer generation, read off a call of
    [generate_response]: a text is a returned string; a block is [None]
    returned after the warning of line 104; a failure is [None] returned
    after the error of line 111. *)
Inductive Answer :=
  | TextAnswer (a : string)
  | Blocked (reason : string)
  | Failed (error : exn).

Definition outcome (r : Ctl (option string) * Store * list Event) (a : Answer) : Prop :=
  match a with
  | TextAnswer t => r.1.1 = Ret (Some t)
  | Blocked reason =>
      r.1.1 = Ret None ∧
      Draw MainArea (st.warning ("The query was blocked: " +:+ reason)) ∈ r.2
  | Failed e =>
      r.1.1 = Ret None ∧
      Draw MainArea (st.error ("Error generating response: " +:+ e)) ∈ r.2
  end.

(** The authenticator's state is the value stored under
    "authentication_status": [None], [True] or [False]. *)
Inductive AuthState := Unauthenticated | Authenticated | Rejected.

Definition auth_state (ss : SessionState) : option AuthState :=
  match authentication_status ss with
  | None => None
  | Some None => Some Unauthenticated
  | Some (Some true) => Some Authenticated
  | Some (Some false) => Some Rejected
  end.

Definition credentials_match (i : Inputs) : bool :=
  bool_decide (text i "Username" = ADMIN_USERNAME ∧ text i "Password" = ADMIN_PASSWORD).

(** The transition function that [check_password] implements. *)
Definition attempt (i : Inputs) (a : AuthState) : AuthState :=
  match a with
  | Unauthenticated =>
      if clicked i "Login"
      then if credentials_match i then Authenticated else Rejected
      else Unauthenticated
  | Authenticated => Authenticated
  | Rejected => Rejected
  end.

(** The elements that make up the admin screen's controls. *)
Definition admin_control (e : Event) : bool :=
  match e with
  | Draw _ (st.title body) => String.eqb body "Admin Side - Document Management"
  | Draw _ (st.file_uploader _ _) => true
  | Draw _ (st.button label _) => String.eqb label "Delete"
  | _ => false
  end.

Definition public (e : Event) : Prop := admin_control e = false.

(** A computation never halts the script and only emits events in [P]. *)
Definition behaves (P : Event → Prop) {A} (m : M A) : Prop :=
  ∀ s, returns m s ≠ StopException ∧ Forall P (out m s).

(** In this run the document picker yields a stored document whose bytes
    [d] can be read: the one case in which lines 166-168 leave
    [document_data] different from [None]. *)
Definition loads (i : Inputs) (s : Store) (d : bytes) : Prop :=
  ∃ dir, fs (world s) !! UPLOAD_FOLDER = Some dir ∧
         selected i ≠ EmptyString ∧
         endswith (selected i) ".pdf" = true ∧
         dir !! selected i = Some d ∧
         io_fault (world s) (open_rb (os_path_join UPLOAD_FOLDER (selected i))) = None.

(** The two transcript entries of one answered question. *)
Definition asked (q a : string) : list ChatMessage :=
  [ {| role := "user"; content := q |}; {| role := "model"; content := a |} ].


Definition API_KEY : string := "GOOGLE_AI_API_KEY".

(** ** Concrete sessions *)

Definition answers (a : string) : exn + Response :=
  inr {| resolve := None; prompt_feedback := None; response_text := inr a |}.
Definition blocks (reason : string) : exn + Response :=
  inr {| resolve := None;
         prompt_feedback := Some {| block_reason := Some reason |};
         response_text := inl "ValueError" |}.

Definition gemini : GenerativeModel := {| model_name := MODEL_NAME |}.
Definition tariff : bytes := [x25; x50; x44; x46].

Definition example_world (reply : exn + Response) : World :=
  {| environ := {[ "GOOGLE_AI_API_KEY" := "secret" ]};
     fs := {[ UPLOAD_FOLDER := {[ "tariff.pdf" := tariff; "empty.pdf" := [] ]} ]};
     io_fault := λ _, None;
     endpoint := λ _ _, reply |}.

Definition example_session (status : option bool) : SessionState :=
  {| model := Some gemini;
     chat_history := Some [];
     authentication_status := Some status;
     document_data := None |}.

Definition example_store (status : option bool) (reply : exn + Response) : Store :=
  {| session := example_session status; world := example_world reply |}.


Definition asks (document question : string) : Inputs :=
  {| radio := "User Side";
     text := λ k, if String.eqb k "prompt_input" then question else EmptyString;
     clicked := λ _, false;
     uploaded_file := None;
     selected := document |}.

Definition logs_in (username password : string) : Inputs :=
  {| radio := "Admin Side";
     text := λ k, if String.eqb k "Username" then username
                  else if String.eqb k "Password" then password else EmptyString;
     clicked := λ k, String.eqb k "Login";
     uploaded_file := None;
     selected := EmptyString |}.

Definition uploads (f : UploadedFile) : Inputs :=
  {| radio := "Admin Side";
     text := λ _, EmptyString;
     clicked := λ _, false;
     uploaded_file := Some f;
     selected := EmptyString |}.

(** ** Vocabulary of the further properties *)

(** A computation relates every store to the store it leaves. *)
Definition frames (R : Store → Store → Prop) {A} (m : M A) : Prop :=
  ∀ s, R s (final m s).

Definition same_world (s s' : Store) : Prop := world s' = world s.
Definition same_session (s s' : Store) : Prop := session s' = session s.
Definition same_status (s s' : Store) : Prop :=
  authentication_status (session s') = authentication_status (session s).

(** The store with which the page is entered: after lines 21-36. *)
Definition started (s : Store) : Store :=
  final init_document_storage (final init_session_state s).

Definition PAGES : list string := ["User Side"; "Admin Side"].
Definition page (i : Inputs) : string := choose PAGES (radio i).


Definition pdf_entries (dir : gmap string bytes) : list string :=
  filter (λ f, endswith f ".pdf") (elements (dom dir)).





(** The request of lines 88-96. *)
Definition request (prompt : string) (document_data : bytes)
    (system_prompt : option string) : list Content :=
  [ {| req_role := "user";
       parts := [ Blob "application/pdf" document_data;
                  Text (fmt system_prompt +:+ nl +:+ prompt) ] |} ].

Definition blocked_warning (reason : string) : Event :=
  Draw MainArea (st.warning ("The query was blocked: " +:+ reason)).
Definition generation_error (e : exn) : Event :=
  Draw MainArea (st.error ("Error generating response: " +:+ e)).

Definition blocked_with_text (reason answer : string) : exn + Response :=
  inr {| resolve := None;
         prompt_feedback := Some {| block_reason := Some reason |};
         response_text := inr answer |}.

Definition question_box : Event :=
  Draw MainArea (st.text_input
    "Ask your question about the selected PGVCL document:" false).

Definition same_model (s s' : Store) : Prop :=
  model (session s') = model (session s).

Definition upload_control : Event :=
  Draw MainArea (st.file_uploader "Upload PGVCL Document (PDF)" ["pdf"]).

(** What lines 197-210 draw for one message. *)
Definition rendered (message : ChatMessage) : Event :=
  let role := capitalize (role message) in
  Draw MainArea
    (st.markdown
       (chat_line (if String.eqb role "User" then PRIMARY_COLOR else SECONDARY_COLOR)
                  role (content message))).

(** * Properties *)

Ltac widgets :=
  unfold st_sidebar_text_input, st_text_input, st_sidebar_button, st_button,
    st_sidebar_radio, st_selectbox, st_file_uploader, st_rerun, st_stop in *.

Ltac run :=
  repeat (unfold returns, final, out, mbind, M_bind, mret, M_ret, raise, emit,
            draw, draw_sidebar, getitem, setitem, get_session, put_session,
            get_world, put_world, try_except, generate_content,
            response_resolve, get_text in *; simpl in * ).

(** ** The model at work *)

Example endswith_pdf :
  endswith "tariff.pdf" ".pdf" = true ∧ endswith "tariff.PDF" ".pdf" = false ∧
  endswith "pdf" ".pdf" = false ∧ endswith ".pdf" ".pdf" = true.
Proof. repeat split. Qed.

Example capitalize_roles :
  capitalize "user" = "User" ∧ capitalize "model" = "Model".
Proof. split; reflexivity. Qed.

(** The first run of a new session on the user page lists the stored PDF
    files in the picker and, with nothing picked, asks to pick one. *)
Example first_run :
  let s := {| session := fresh_session; world := example_world (answers "ok") |} in
  out (script (asks EmptyString EmptyString)) s =
    [ Configure (Some "secret");
      Draw MainArea (st.set_page_config PAGE_TITLE ":bulb:" "wide");
      Draw Sidebar (st.radio "Select Page:" ["User Side"; "Admin Side"]);
      Draw MainArea (st.title "User Side - PGVCL Smart Assistant");
      Draw Sidebar (st.subheader "Document Selection");
      Draw Sidebar (st.selectbox "Select a PGVCL Document:"
                      [EmptyString; "empty.pdf"; "tariff.pdf"]);
      Draw MainArea (st.info
        "Please select a PGVCL document from the sidebar to ask questions about.") ] ∧
  session (final (script (asks EmptyString EmptyString)) s) =
    {| model := Some gemini; chat_history := Some [];
       authentication_status := Some None; document_data := Some None |}.
Proof. split; vm_compute; reflexivity. Qed.

(** A question about a picked document: one request, two new messages. *)
Example question_answered :
  let i := asks "tariff.pdf" "What are the charges for a 10kW connection?" in
  let s := example_store None (answers "See section 4.") in
  remote_calls (out (script i) s) =
    [ (MODEL_NAME,
       [ {| req_role := "user";
            parts := [ Blob "application/pdf" tariff;
                       Text (SYSTEM_PROMPT +:+ nl +:+
                             "What are the charges for a 10kW connection?") ] |} ]) ] ∧
  chat_history (session (final (script i) s)) =
    Some (asked "What are the charges for a 10kW connection?" "See section 4.").
Proof. split; vm_compute; reflexivity. Qed.

(** A transport error is shown and nothing is recorded. *)
Example question_failed :
  let i := asks "tariff.pdf" "What are the charges?" in
  let s := example_store None (inl "503 Service Unavailable") in
  Draw MainArea (st.error "Error generating response: 503 Service Unavailable")
    ∈ out (script i) s ∧
  chat_history (session (final (script i) s)) = Some [].
Proof.
  split; [|vm_compute; reflexivity].
  vm_compute. do 9 apply list_elem_of_further. apply list_elem_of_here.
Qed.

(** A pressed delete button removes the file and restarts the run. *)
Example delete_pressed :
  let i := {| radio := "Admin Side"; text := λ _, EmptyString;
              clicked := λ k, String.eqb k "delete_empty.pdf";
              uploaded_file := None; selected := EmptyString |} in
  let s := example_store (Some true) (answers "ok") in
  returns (script i) s = RerunException ∧
  fs (world (final (script i) s)) !! UPLOAD_FOLDER
    = Some ({[ "tariff.pdf" := tariff ]} : gmap string bytes).
Proof. split; vm_compute; reflexivity. Qed.

(** ** Small facts about strings and lists *)

Lemma truthy_nonempty (s : string) : s ≠ EmptyString → truthy s = true.
Proof. by destruct s. Qed.







Lemma choose_listed (n : string) (l : list string) :
  n ∈ l → choose (EmptyString :: l) n = n.
Proof.
  intros H. unfold choose. rewrite decide_True; [done|].
  by apply list_elem_of_further.
Qed.

Lemma remote_calls_app o1 o2 :
  remote_calls (o1 ++ o2) = remote_calls o1 ++ remote_calls o2.
Proof. apply omap_app. Qed.

Lemma remote_calls_draw c e o : remote_calls (Draw c e :: o) = remote_calls o.
Proof. done. Qed.

Lemma for_each_cons {A} (x : A) (l : list A) (body : A → M unit) s :
  for_each (x :: l) body s =
    match body x s with
    | (Ret _, s1, o1) => let '(c, s2, o2) := for_each l body s1 in (c, s2, o1 ++ o2)
    | (Raise e, s1, o1) => (Raise e, s1, o1)
    | (RerunException, s1, o1) => (RerunException, s1, o1)
    | (StopException, s1, o1) => (StopException, s1, o1)
    end.
Proof. done. Qed.

(** ** Answer generation *)

Ltac generate_cases d :=
  unfold generate_response;
  destruct d as [[|? ?]|]; run; eauto;
  destruct (endpoint _ _ _) as [?|?r]; run; eauto;
  destruct (resolve r); run; eauto;
  destruct (prompt_feedback r) as [[[?|]]|]; run; eauto;
  destruct (response_text r); run; eauto.

(** [generate_response] neither reads nor writes the session: its result
    depends on the world only, and it leaves the store as it is. *)
Lemma generate_response_world q m d sp s s' :
  world s = world s' →
  generate_response q m d sp s' =
    (returns (generate_response q m d sp) s, s', out (generate_response q m d sp) s).
Proof.
  intros Hw. unfold generate_response. destruct d as [[|b d]|]; run; try done.
  rewrite Hw.
  destruct (endpoint _ _ _) as [e|r]; run; try done.
  destruct (resolve r); run; try done.
  destruct (prompt_feedback r) as [[[reason|]]|]; run; try done;
  destruct (response_text r); run; done.
Qed.

(** It always returns: every exception is caught at line 110. *)
Lemma generate_response_returns q m d sp s :
  ∃ a, returns (generate_response q m d sp) s = Ret a.
Proof. generate_cases d. Qed.

(** Every call ends in one of the three outcomes. *)
Lemma generate_response_total q m d sp s :
  ∃ a, outcome (generate_response q m d sp s) a.
Proof.
  unfold generate_response. destruct d as [[|b d]|]; run;
    try (by eexists (TextAnswer _)).
  destruct (endpoint _ _ _) as [e|r]; run.
  { exists (Failed e). simpl. split; [done|]. apply list_elem_of_further, list_elem_of_here. }
  destruct (resolve r) as [e|]; run.
  { exists (Failed e). simpl. split; [done|]. apply list_elem_of_further, list_elem_of_here. }
  destruct (prompt_feedback r) as [[[reason|]]|]; run.
  - exists (Blocked reason). simpl. split; [done|].
    apply list_elem_of_further, list_elem_of_here.
  - destruct (response_text r) as [e|t]; run.
    + exists (Failed e). simpl. split; [done|].
      apply list_elem_of_further, list_elem_of_here.
    + by exists (TextAnswer t).
  - destruct (response_text r) as [e|t]; run.
    + exists (Failed e). simpl. split; [done|].
      apply list_elem_of_further, list_elem_of_here.
    + by exists (TextAnswer t).
Qed.

(** C5.  For every question [q], document bytes [d] and system instructions
    [sp], what [generate_response] sends to the remote endpoint is one
    request of one message, of role "user", with two parts: the bytes [d]
    tagged "application/pdf", and the text [sp], a line break, [q].  The
    request does not depend on the store, so no earlier chat message is part
    of it.  (For empty bytes nothing is sent.) *)
Theorem request_construction q m d sp s :
  remote_calls (out (generate_response q m (Some d) (Some sp)) s) =
    if truthy d
    then [ (model_name m,
            [ {| req_role := "user";
                 parts := [ Blob "application/pdf" d; Text (sp +:+ nl +:+ q) ] |} ]) ]
    else [].
Proof.
  unfold generate_response. destruct d as [|b d]; run; try done.
  destruct (endpoint _ _ _) as [e|r]; run; try done.
  destruct (resolve r); run; try done.
  destruct (prompt_feedback r) as [[[reason|]]|]; run; try done;
  destruct (response_text r); run; done.
Qed.

(** ** Authentication *)

Lemma check_password_rejected i s :
  auth_state (session s) = Some Rejected →
  check_password i s = (Ret false, s, []).
Proof.
  unfold auth_state, check_password. intros H.
  destruct (authentication_status (session s)) as [[[|]|]|] eqn:E; try done.
  run. by rewrite E.
Qed.

Lemma check_password_authenticated i s :
  auth_state (session s) = Some Authenticated →
  check_password i s = (Ret true, s, []).
Proof.
  unfold auth_state, check_password. intros H.
  destruct (authentication_status (session s)) as [[[|]|]|] eqn:E; try done.
  run. by rewrite E.
Qed.

Lemma credentials_match_eqb i :
  String.eqb (text i "Username") ADMIN_USERNAME
  && String.eqb (text i "Password") ADMIN_PASSWORD = credentials_match i.
Proof.
  unfold credentials_match.
  destruct (String.eqb_spec (text i "Username") ADMIN_USERNAME) as [Hu|Hu];
  destruct (String.eqb_spec (text i "Password") ADMIN_PASSWORD) as [Hp|Hp]; simpl;
    symmetry; first [ by apply bool_decide_eq_true | apply bool_decide_eq_false; tauto ].
Qed.

Lemma check_password_step i s a :
  auth_state (session s) = Some a →
  auth_state (session (final (check_password i) s)) = Some (attempt i a).
Proof.
  intros Ha. destruct a; simpl.
  - unfold auth_state, check_password in *.
    destruct (authentication_status (session s)) as [[[|]|]|] eqn:E; try done.
    widgets. run. rewrite E. simpl. rewrite credentials_match_eqb.
    destruct (clicked i "Login"); simpl; [|by rewrite E].
    by destruct (credentials_match i).
  - unfold final. by rewrite check_password_authenticated.
  - unfold final. by rewrite check_password_rejected.
Qed.

Lemma check_password_true i s :
  returns (check_password i) s = Ret true →
  auth_state (session s) = Some Authenticated.
Proof.
  unfold auth_state, check_password.
  destruct (authentication_status (session s)) as [[[|]|]|] eqn:E;
    widgets; run; rewrite E; simpl; try done.
  destruct (clicked i "Login"); try done.
  destruct (_ && _); done.
Qed.




(** C6.  From the Unauthenticated state, a login attempt yields
    Authenticated when the submitted pair equals the configured pair (string
    equality on both components) and Rejected for every other pair. *)
Theorem attempt_from_unauthenticated i s :
  auth_state (session s) = Some Unauthenticated →
  clicked i "Login" = true →
  auth_state (session (final (check_password i) s)) =
    Some (if bool_decide (text i "Username" = ADMIN_USERNAME ∧
                          text i "Password" = ADMIN_PASSWORD)
          then Authenticated else Rejected).
Proof.
  intros Ha Hc. rewrite (check_password_step i s Unauthenticated Ha).
  simpl. by rewrite Hc.
Qed.

Lemma attempt_from_unauthenticated_witness :
  auth_state (session (final (check_password (logs_in "admin" "password123"))
                             (example_store None (answers "ok"))))
  = Some Authenticated.
Proof.
  apply (attempt_from_unauthenticated (logs_in "admin" "password123")
           (example_store None (answers "ok"))); reflexivity.
Defined.

(** ** What a computation may emit, and that it does not halt the script *)

Section Behaves.
Context (P : Event → Prop).

Lemma behaves_ret {A} (a : A) : behaves P (mret a).
Proof. intros s. by split. Qed.

Lemma behaves_raise {A} (e : exn) : behaves P (raise e : M A).
Proof. intros s. by split. Qed.

Lemma behaves_rerun {A} : behaves P (st_rerun : M A).
Proof. intros s. by split. Qed.

Lemma behaves_emit (e : Event) : P e → behaves P (emit e).
Proof. intros He s. split; [done|]. by apply Forall_singleton. Qed.

Lemma behaves_bind {A B} (m : M A) (k : A → M B) :
  behaves P m → (∀ a, behaves P (k a)) → behaves P (m ≫= k).
Proof.
  intros Hm Hk s. specialize (Hm s). unfold returns, out in *.
  unfold mbind, M_bind.
  destruct (m s) as [[[a|e| |] s1] o1]; simpl in *; destruct Hm as [Hr Ho];
    try (split; done).
  specialize (Hk a s1). unfold returns, out in Hk.
  destruct (k a s1) as [[c s2] o2]; simpl in *.
  destruct Hk. split; [done|]. by apply Forall_app.
Qed.

Lemma behaves_try_except {A} (body : M A) (handler : exn → M A) :
  behaves P body → (∀ e, behaves P (handler e)) → behaves P (try_except body handler).
Proof.
  intros Hm Hk s. specialize (Hm s). unfold returns, out, try_except in *.
  destruct (body s) as [[[a|e| |] s1] o1]; simpl in *; destruct Hm as [Hr Ho];
    try (split; done).
  specialize (Hk e s1). unfold returns, out in Hk.
  destruct (handler e s1) as [[c s2] o2]; simpl in *.
  destruct Hk. split; [done|]. by apply Forall_app.
Qed.

Lemma behaves_within {A} (c : Container) (body : M A) :
  (∀ e, P e → P (relocate c e)) → behaves P body → behaves P (within c body).
Proof.
  intros Hc Hm s. specialize (Hm s). unfold returns, out, within in *.
  destruct (body s) as [[r s1] o1]; simpl in *. destruct Hm as [? Ho].
  split; [done|]. apply Forall_fmap. eapply Forall_impl; [exact Ho|]. done.
Qed.

Lemma behaves_for_each {A} (l : list A) (body : A → M unit) :
  (∀ x, behaves P (body x)) → behaves P (for_each l body).
Proof.
  intros Hb. induction l as [|x l IH]; simpl.
  - apply behaves_ret.
  - apply behaves_bind; [apply Hb | intros _; apply IH].
Qed.

Lemma behaves_get_session : behaves P get_session.
Proof. intros s. by split. Qed.

Lemma behaves_put_session ss : behaves P (put_session ss).
Proof. intros s. by split. Qed.

Lemma behaves_get_world : behaves P get_world.
Proof. intros s. by split. Qed.

Lemma behaves_put_world w : behaves P (put_world w).
Proof. intros s. by split. Qed.

End Behaves.


Ltac behave :=
  repeat first [ progress intros |
    lazymatch goal with
    | |- behaves _ (mbind _ _) => apply behaves_bind
    | |- behaves _ (try_except _ _) => apply behaves_try_except
    | |- behaves _ (for_each _ _) => apply behaves_for_each
    | |- behaves _ (mret _) => apply behaves_ret
    | |- behaves _ (raise _) => apply behaves_raise
    | |- behaves _ st_rerun => apply behaves_rerun
    | |- behaves _ get_session => apply behaves_get_session
    | |- behaves _ (put_session _) => apply behaves_put_session
    | |- behaves _ get_world => apply behaves_get_world
    | |- behaves _ (put_world _) => apply behaves_put_world
    | |- behaves _ (emit _) => apply behaves_emit
    | |- behaves _ (match ?x with _ => _ end) => destruct x
    end ].

Lemma public_relocate c e : public e → public (relocate c e).
Proof. by destruct e as [[]|? |]. Qed.

Lemma generate_response_behaves P q m d sp :
  (∀ c, P (GenerateContent (model_name m) c)) →
  (∀ b, P (Draw MainArea (st.warning b))) →
  (∀ b, P (Draw MainArea (st.error b))) →
  behaves P (generate_response q m d sp).
Proof.
  intros. unfold generate_response, generate_content, response_resolve, get_text, draw.
  behave; auto.
Qed.

Lemma user_page_public i : behaves public (user_page i).
Proof.
  unfold user_page, list_documents, os_listdir, chat_history_append, render_message,
    load_document, read_file, getitem, setitem, draw. widgets. unfold draw.
  behave; try done.
  - apply behaves_within; [apply public_relocate|]. behave; done.
  - apply generate_response_behaves; done.
Qed.

Lemma check_password_public i : behaves public (check_password i).
Proof.
  unfold check_password, getitem, setitem. widgets. unfold draw_sidebar.
  behave; done.
Qed.


(** ** The script *)

Lemma configure_api_key_missing s :
  truthy (environ (world s) !! API_KEY) = false →
  configure_api_key s = (StopException, s, [Draw MainArea (st.error API_KEY_MISSING)]).
Proof.
  intros H. unfold configure_api_key, os_getenv, st_stop. run.
  unfold API_KEY in H. by rewrite H.
Qed.

Lemma configure_api_key_present s :
  truthy (environ (world s) !! API_KEY) = true →
  configure_api_key s = (Ret tt, s, [Configure (environ (world s) !! API_KEY)]).
Proof.
  intros H. unfold configure_api_key, os_getenv, st_stop. run.
  unfold API_KEY in H. by rewrite H.
Qed.

Lemma init_session_state_run s :
  ∃ ss, init_session_state s = (Ret tt, {| session := ss; world := world s |}, []) ∧
        auth_state ss = Some (default Unauthenticated (auth_state (session s))).
Proof.
  unfold init_session_state, auth_state. run. destruct s as [[m h a d] w]; simpl.
  destruct m, h, a as [[[|]|]|]; simpl; eauto.
Qed.

Lemma init_document_storage_run s :
  ∃ w, init_document_storage s = (Ret tt, {| session := session s; world := w |}, []).
Proof.
  unfold init_document_storage, os_path_exists, os_makedirs. run.
  case_bool_decide; simpl; eauto. destruct s; eauto.
Qed.

Lemma script_halts i s :
  truthy (environ (world s) !! API_KEY) = false →
  script i s = (StopException, s, [Draw MainArea (st.error API_KEY_MISSING)]).
Proof.
  intros H. unfold script. unfold mbind at 1, M_bind.
  by rewrite (configure_api_key_missing s H).
Qed.

Lemma script_proceeds i s :
  truthy (environ (world s) !! API_KEY) = true →
  ∃ s1, auth_state (session s1) = Some (default Unauthenticated (auth_state (session s))) ∧
        script i s =
          (returns (main_app_flow i) s1, final (main_app_flow i) s1,
           Configure (environ (world s) !! API_KEY) :: out (main_app_flow i) s1).
Proof.
  intros H. unfold script, returns, final, out, mbind, M_bind.
  rewrite (configure_api_key_present s H).
  destruct (init_session_state_run s) as (ss & -> & Hss).
  destruct (init_document_storage_run {| session := ss; world := world s |}) as (w & ->).
  simpl. exists {| session := ss; world := w |}.
  by destruct (main_app_flow i _) as [[c s2] o2].
Qed.



Lemma main_app_flow_public i s :
  auth_state (session s) ≠ Some Authenticated →
  Forall public (out (main_app_flow i) s).
Proof.
  intros Hs. unfold main_app_flow. widgets. run.
  destruct (String.eqb _ _).
  - pose proof (check_password_true i s) as Ht.
    destruct (check_password_public i s) as [_ Ho]. unfold returns, out in *.
    destruct (check_password i s) as [[[[|]| | |] s1] o1]; simpl in *;
      try (by repeat constructor);
      try (by rewrite app_nil_r; repeat constructor).
    by destruct Hs; apply Ht.
  - destruct (user_page_public i s) as [_ Ho]. unfold out in Ho.
    destruct (user_page i s) as [[c s2] o2]; simpl in *. by repeat constructor.
Qed.



(** C7.  A fresh session starts Unauthenticated, and in every run of the
    script an admin control (the admin title, the upload control, a delete
    button) is drawn only if the session entered the run Authenticated: a
    session that is new, Unauthenticated or Rejected never reaches them. *)
Theorem admin_screen_requires_authentication :
  (∀ w, auth_state (session (final init_session_state
                               {| session := fresh_session; world := w |}))
        = Some Unauthenticated) ∧
  (∀ i s e, e ∈ out (script i) s → admin_control e = true →
            auth_state (session s) = Some Authenticated).
Proof.
  split; [done|]. intros i s e He Hadm.
  destruct (truthy (environ (world s) !! API_KEY)) eqn:Hkey.
  - destruct (script_proceeds i s Hkey) as (s1 & Hs1 & Hrun).
    unfold out in He. rewrite Hrun in He. simpl in He.
    apply elem_of_cons in He as [->|He]; [done|].
    assert (auth_state (session s1) ≠ Some Authenticated → False) as Hno.
    { intros Ha. pose proof (main_app_flow_public i s1 Ha) as Hp.
      rewrite Forall_forall in Hp. specialize (Hp e He). unfold public in Hp. congruence. }
    destruct (auth_state (session s)) as [[| |]|]; simpl in Hs1;
      [ | done | | ]; destruct Hno; by rewrite Hs1.
  - unfold out in He. rewrite (script_halts i s Hkey) in He. simpl in He.
    apply list_elem_of_singleton in He as ->. done.
Qed.

Lemma admin_screen_requires_authentication_witness :
  let i := uploads {| name := "tariff.pdf"; file_data := tariff |} in
  let s := example_store (Some true) (answers "ok") in
  let e := Draw MainArea (st.file_uploader "Upload PGVCL Document (PDF)" ["pdf"]) in
  e ∈ out (script i) s ∧ auth_state (session s) = Some Authenticated.
Proof.
  intros i s e.
  assert (e ∈ out (script i) s) as He.
  { vm_compute. do 4 apply list_elem_of_further. apply list_elem_of_here. }
  split; [exact He|].
  apply (proj2 admin_screen_requires_authentication i s e He). reflexivity.
Defined.

(** ** The user page *)

Lemma list_documents_run s dir :
  fs (world s) !! UPLOAD_FOLDER = Some dir →
  list_documents s =
    (Ret (filter (λ f, endswith f ".pdf") (elements (dom dir))), s, []).
Proof. intros H. unfold list_documents, os_listdir. run. by rewrite H. Qed.

Lemma load_document_run s folder entry dir d :
  fs (world s) !! folder = Some dir → dir !! entry = Some d →
  io_fault (world s) (open_rb (os_path_join folder entry)) = None →
  load_document (os_path_join folder entry) s = (Ret (Some d), s, []).
Proof.
  intros Hdir Hd Hio. unfold load_document, read_file, os_path_join in *. run.
  rewrite Hio. simpl. rewrite Hdir. simpl. by rewrite Hd.
Qed.

Lemma render_message_run m s :
  ∃ body, render_message m s = (Ret tt, s, [Draw MainArea (st.markdown body)]).
Proof. unfold render_message. destruct (String.eqb _ _); run; eauto. Qed.

(** Drawing the transcript changes nothing and calls nobody. *)
Lemma render_history h s :
  ∃ o, for_each h render_message s = (Ret tt, s, o) ∧ remote_calls o = [].
Proof.
  induction h as [|m h (o & IH & Ho)]; simpl; [by eexists|].
  unfold mbind, M_bind. destruct (render_message_run m s) as [body ->].
  rewrite IH. eexists; split; done.
Qed.

Arguments list_documents : simpl never.
Arguments load_document : simpl never.
Arguments generate_response : simpl never.
Arguments for_each : simpl never.
Arguments choose : simpl never.
Arguments document_row : simpl never.

(** A run of the user page in which a document is loaded and a question is
    submitted: the one call of [generate_response] decides the transcript. *)
Lemma user_page_asks i s m h d :
  model (session s) = Some m →
  chat_history (session s) = Some h →
  loads i s d →
  text i "prompt_input" ≠ EmptyString →
  let q := text i "prompt_input" in
  let g := generate_response q m (Some d) (Some SYSTEM_PROMPT) in
  ∃ a, returns g s = Ret a ∧
       returns (user_page i) s = Ret tt ∧
       Draw MainArea (st.text_input
         "Ask your question about the selected PGVCL document:" false)
         ∈ out (user_page i) s ∧
       remote_calls (out (user_page i) s) = remote_calls (out g s) ∧
       world (final (user_page i) s) = world s ∧
       document_data (session (final (user_page i) s)) = Some (Some d) ∧
       chat_history (session (final (user_page i) s)) =
         Some (match a with
               | Some t => if truthy t then h ++ asked q t else h
               | None => h
               end).
Proof.
  intros Hm Hh (dir & Hdir & Hsel & Hpdf & Hd & Hio) Hq q g. subst q g.
  assert (selected i ∈ filter (λ f, endswith f ".pdf") (elements (dom dir))) as Hin.
  { apply list_elem_of_filter. split; [by rewrite Hpdf|].
    apply elem_of_elements, elem_of_dom. eauto. }
  unfold user_page, within. widgets. run.
  rewrite (list_documents_run s dir Hdir). simpl.
  rewrite (choose_listed _ _ Hin).
  rewrite (truthy_nonempty _ Hsel).
  rewrite (load_document_run s UPLOAD_FOLDER (selected i) dir d Hdir Hd Hio). simpl.
  rewrite (truthy_nonempty _ Hq).
  unfold set_document_data at 1. simpl. rewrite Hm. simpl.
  rewrite (generate_response_world _ _ _ _ s
             {| session := set_document_data (Some d) (session s); world := world s |})
    by done.
  destruct (generate_response_returns (text i "prompt_input") m (Some d)
              (Some SYSTEM_PROMPT) s) as [a Ha].
  unfold returns, out in *. rewrite Ha. exists a. split; [done|]. simpl.
  assert (∀ o1 o, remote_calls o = [] →
            remote_calls ((o1 ++ []) ++ Draw MainArea (st.subheader "Chat History") :: o)
            = remote_calls o1) as Hcalls.
  { intros o1 o Ho.
    by rewrite app_nil_r, remote_calls_app, remote_calls_draw, Ho, app_nil_r. }
  destruct a as [[|c t]|]; simpl.
  - rewrite Hh. simpl.
    destruct (render_history h {| session := set_document_data (Some d) (session s);
                                  world := world s |}) as (o & -> & Ho).
    simpl. rewrite Hcalls by done. repeat split; try done.
    rewrite !elem_of_cons. auto 10.
  - unfold chat_history_append. run. rewrite Hh. simpl.
    match goal with
    | |- context [for_each ?l render_message ?s1] =>
        destruct (render_history l s1) as (o & -> & Ho)
    end.
    simpl. rewrite Hcalls by done. unfold asked.
    repeat split; try done; [|by rewrite <- app_assoc].
    rewrite !elem_of_cons. auto 10.
  - rewrite Hh. simpl.
    destruct (render_history h {| session := set_document_data (Some d) (session s);
                                  world := world s |}) as (o & -> & Ho).
    simpl. rewrite Hcalls by done. repeat split; try done.
    rewrite !elem_of_cons. auto 10.
Qed.

(** A run of the user page in which no document is loaded: nothing is asked
    of the endpoint and the transcript stays as it is. *)
Lemma user_page_idle i s :
  (∀ d, ¬ loads i s d) →
  remote_calls (out (user_page i) s) = [] ∧
  chat_history (session (final (user_page i) s)) = chat_history (session s).
Proof.
  intros Hno. unfold user_page, within. widgets. run.
  destruct (fs (world s) !! UPLOAD_FOLDER) as [dir|] eqn:Hdir.
  2:{ unfold list_documents, os_listdir. run. by rewrite Hdir. }
  rewrite (list_documents_run s dir Hdir). simpl.
  set (docs := filter (λ f, endswith f ".pdf") (elements (dom dir))).
  destruct (truthy (choose (EmptyString :: docs) (selected i))) eqn:Hsel; simpl.
  2:{ unfold set_document_data. by simpl. }
  assert (choose (EmptyString :: docs) (selected i) = selected i ∧
          selected i ≠ EmptyString ∧ selected i ∈ docs) as (Hc & Hne & Hin).
  { unfold choose in *. case_decide as Hin; simpl in *; [|done].
    assert (selected i ≠ EmptyString) as Hne by (by destruct (selected i)).
    apply elem_of_cons in Hin as [Hin|Hin]; done. }
  rewrite Hc. apply list_elem_of_filter in Hin as [Hpdf Hdom].
  apply elem_of_elements, elem_of_dom in Hdom as [d Hd].
  destruct (io_fault (world s) (open_rb (os_path_join UPLOAD_FOLDER (selected i))))
    as [e|] eqn:Hio.
  - unfold load_document, read_file, os_path_join in *. run. rewrite Hio. by simpl.
  - destruct (Hno d). exists dir. repeat split; try done.
    by destruct (endswith _ _).
Qed.

Lemma example_loads status reply name d q :
  fs (example_world reply) !! UPLOAD_FOLDER ≫= (.!! name) = Some d →
  name ≠ EmptyString → endswith name ".pdf" = true →
  loads (asks name q) (example_store status reply) d.
Proof.
  intros Hd Hne Hpdf. simpl in Hd.
  destruct (_ !! UPLOAD_FOLDER) as [dir|] eqn:Hdir; [|done].
  exists dir. repeat split; done.
Qed.

(** C2, as the code has it.  Called without a document, [generate_response]
    returns the fixed reminder text as an ordinary string (not the [None] of
    a failure), draws nothing, leaves the store alone and does not call the
    endpoint.  On the user page the case does not arise: when the run loads
    no document the generator is not called at all, no request is sent and
    the transcript is unchanged. *)
Theorem no_document_reminder q m sp i s :
  generate_response q m None sp s = (Ret (Some NO_DOCUMENT), s, []) ∧
  ((∀ d, ¬ loads i s d) →
   remote_calls (out (user_page i) s) = [] ∧
   chat_history (session (final (user_page i) s)) = chat_history (session s)).
Proof. split; [done | apply user_page_idle]. Qed.

Lemma no_document_reminder_witness :
  let i := asks EmptyString "What are the charges?" in
  let s := example_store None (answers "ok") in
  generate_response "What are the charges?" gemini None (Some SYSTEM_PROMPT) s
    = (Ret (Some NO_DOCUMENT), s, []) ∧
  remote_calls (out (user_page i) s) = [] ∧
  chat_history (session (final (user_page i) s)) = chat_history (session s).
Proof.
  intros i s.
  destruct (no_document_reminder "What are the charges?" gemini (Some SYSTEM_PROMPT) i s)
    as [H1 H2].
  split; [exact H1|]. apply H2. intros d (dir & _ & Hsel & _). by apply Hsel.
Defined.

(** C2, as stated, fails: without a document the outcome is the reminder
    text, not a failure. *)
Lemma no_document_is_not_failed :
  let r := generate_response "What are the charges?" gemini None (Some SYSTEM_PROMPT)
             (example_store None (answers "ok")) in
  outcome r (TextAnswer NO_DOCUMENT) ∧ ¬ ∃ e, outcome r (Failed e).
Proof. split; [done|]. by intros [e [? ?]]. Qed.

(** C3.  When the generation call of a run ends Blocked or Failed, the
    transcript after the run is the transcript before it, and the run has
    sent exactly one request: nothing is retried. *)
Theorem blocked_or_failed_leaves_transcript i s m h d :
  model (session s) = Some m →
  chat_history (session s) = Some h →
  loads i s d →
  text i "prompt_input" ≠ EmptyString →
  let g := generate_response (text i "prompt_input") m (Some d) (Some SYSTEM_PROMPT) s in
  (∃ reason, outcome g (Blocked reason)) ∨ (∃ e, outcome g (Failed e)) →
  chat_history (session (final (user_page i) s)) = Some h ∧
  length (remote_calls (out (user_page i) s)) = 1.
Proof.
  intros Hm Hh Hd Hq g Hg.
  destruct (user_page_asks i s m h d Hm Hh Hd Hq) as (a & Ha & _ & _ & Hc & _ & _ & Hch).
  assert (g.1.1 = Ret None) as Hnone by (destruct Hg as [[? []]|[? []]]; done).
  subst g. unfold returns in Ha. rewrite Hnone in Ha. injection Ha as <-.
  split; [done|]. rewrite Hc, request_construction.
  destruct d; [|done]. done.
Qed.

Lemma blocked_or_failed_leaves_transcript_witness :
  let i := asks "tariff.pdf" "What are the charges?" in
  let s := example_store None (blocks "SAFETY") in
  chat_history (session (final (user_page i) s)) = Some [] ∧
  length (remote_calls (out (user_page i) s)) = 1.
Proof.
  intros i s.
  apply (blocked_or_failed_leaves_transcript i s gemini [] tariff).
  - reflexivity.
  - reflexivity.
  - apply example_loads; [vm_compute; reflexivity | discriminate | reflexivity].
  - simpl. discriminate.
  - left. exists "SAFETY". split; [reflexivity|].
    vm_compute. apply list_elem_of_further, list_elem_of_here.
Defined.

(** C4, as the code has it.  When the generation call of a run returns a
    non-empty text [a] for the question [q], the transcript after the run is
    the transcript before it followed by the user message [q] and the model
    message [a], in that order. *)
Theorem text_answer_appended i s m h d a :
  model (session s) = Some m →
  chat_history (session s) = Some h →
  loads i s d →
  text i "prompt_input" ≠ EmptyString →
  outcome (generate_response (text i "prompt_input") m (Some d) (Some SYSTEM_PROMPT) s)
          (TextAnswer a) →
  a ≠ EmptyString →
  chat_history (session (final (user_page i) s)) =
    Some (h ++ [ {| role := "user"; content := text i "prompt_input" |};
                 {| role := "model"; content := a |} ]).
Proof.
  intros Hm Hh Hd Hq Hg Hne.
  destruct (user_page_asks i s m h d Hm Hh Hd Hq) as (a' & Ha & _ & _ & _ & _ & _ & Hch).
  simpl in Hg. unfold returns in Ha.
  rewrite Hg in Ha. injection Ha as <-.
  rewrite Hch. by rewrite (truthy_nonempty _ Hne).
Qed.

Lemma text_answer_appended_witness :
  let i := asks "tariff.pdf" "What are the charges?" in
  let s := example_store None (answers "42 rupees") in
  chat_history (session (final (user_page i) s)) =
    Some [ {| role := "user"; content := "What are the charges?" |};
           {| role := "model"; content := "42 rupees" |} ].
Proof.
  intros i s.
  apply (text_answer_appended i s gemini [] tariff "42 rupees").
  - reflexivity.
  - reflexivity.
  - apply example_loads; [vm_compute; reflexivity | discriminate | reflexivity].
  - simpl. discriminate.
  - reflexivity.
  - discriminate.
Defined.

(** C4, as stated, fails: the endpoint may answer with the empty text; the
    call then has a Text outcome and the run appends nothing. *)
Lemma empty_answer_not_appended :
  let i := asks "tariff.pdf" "What are the charges?" in
  let s := example_store None (answers EmptyString) in
  model (session s) = Some gemini ∧
  chat_history (session s) = Some [] ∧
  loads i s tariff ∧
  outcome (generate_response (text i "prompt_input") gemini (Some tariff)
             (Some SYSTEM_PROMPT) s) (TextAnswer EmptyString) ∧
  chat_history (session (final (user_page i) s)) = Some [] ∧
  chat_history (session (final (user_page i) s)) ≠
    Some ([] ++ [ {| role := "user"; content := text i "prompt_input" |};
                  {| role := "model"; content := EmptyString |} ]).
Proof.
  intros i s. split; [reflexivity|]. split; [reflexivity|]. split.
  { apply example_loads; [vm_compute; reflexivity | discriminate | reflexivity]. }
  split; [reflexivity|].
  assert (chat_history (session (final (user_page i) s)) = Some []) as ->
    by (vm_compute; reflexivity).
  split; [reflexivity | discriminate].
Qed.

(** C10.  When the selected document is stored with zero bytes, the
    selected-document state is still not [None], so the question input is
    drawn; a submitted question makes the generator return the reminder text
    without any request to the endpoint, and the run appends the question
    and, as a model message, the reminder. *)
Theorem empty_document_reminder i s m h :
  model (session s) = Some m →
  chat_history (session s) = Some h →
  loads i s [] →
  text i "prompt_input" ≠ EmptyString →
  document_data (session (final (user_page i) s)) = Some (Some []) ∧
  Draw MainArea (st.text_input
    "Ask your question about the selected PGVCL document:" false)
    ∈ out (user_page i) s ∧
  returns (generate_response (text i "prompt_input") m (Some []) (Some SYSTEM_PROMPT)) s
    = Ret (Some NO_DOCUMENT) ∧
  remote_calls (out (user_page i) s) = [] ∧
  chat_history (session (final (user_page i) s)) =
    Some (h ++ [ {| role := "user"; content := text i "prompt_input" |};
                 {| role := "model"; content := NO_DOCUMENT |} ]).
Proof.
  intros Hm Hh Hd Hq.
  destruct (user_page_asks i s m h [] Hm Hh Hd Hq)
    as (a & Ha & _ & Hin & Hc & _ & Hdoc & Hch).
  assert (a = Some NO_DOCUMENT) as -> by (by injection Ha).
  repeat split; done.
Qed.

Lemma empty_document_reminder_witness :
  let i := asks "empty.pdf" "What are the charges?" in
  let s := example_store None (answers "42 rupees") in
  document_data (session (final (user_page i) s)) = Some (Some []) ∧
  Draw MainArea (st.text_input
    "Ask your question about the selected PGVCL document:" false)
    ∈ out (user_page i) s ∧
  returns (generate_response (text i "prompt_input") gemini (Some []) (Some SYSTEM_PROMPT)) s
    = Ret (Some NO_DOCUMENT) ∧
  remote_calls (out (user_page i) s) = [] ∧
  chat_history (session (final (user_page i) s)) =
    Some [ {| role := "user"; content := "What are the charges?" |};
           {| role := "model"; content := NO_DOCUMENT |} ].
Proof.
  intros i s.
  apply (empty_document_reminder i s gemini []).
  - reflexivity.
  - reflexivity.
  - apply example_loads; [vm_compute; reflexivity | discriminate | reflexivity].
  - simpl. discriminate.
Defined.

(** ** The admin page *)





(** * Further properties *)

Section Frames.
Context (R : Store → Store → Prop) {Hrefl : Reflexive R} {Htrans : Transitive R}.

Lemma frames_pure {A} (m : M A) : (∀ s, final m s = s) → frames R m.
Proof using Hrefl. intros H s. by rewrite H. Qed.

Lemma frames_ret {A} (a : A) : frames R (mret a).
Proof using Hrefl. by apply frames_pure. Qed.

Lemma frames_raise {A} (e : exn) : frames R (raise e : M A).
Proof using Hrefl. by apply frames_pure. Qed.

Lemma frames_rerun {A} : frames R (st_rerun : M A).
Proof using Hrefl. by apply frames_pure. Qed.

Lemma frames_emit (e : Event) : frames R (emit e).
Proof using Hrefl. by apply frames_pure. Qed.

Lemma frames_get_session : frames R get_session.
Proof using Hrefl. by apply frames_pure. Qed.

Lemma frames_get_world : frames R get_world.
Proof using Hrefl. by apply frames_pure. Qed.

Lemma frames_bind {A B} (m : M A) (k : A → M B) :
  frames R m → (∀ a, frames R (k a)) → frames R (m ≫= k).
Proof using Htrans.
  intros Hm Hk s. specialize (Hm s). unfold final, mbind, M_bind in *.
  destruct (m s) as [[[a|e| |] s1] o1]; simpl in *; try done.
  specialize (Hk a s1). unfold final in Hk.
  destruct (k a s1) as [[c s2] o2]; simpl in *. by transitivity s1.
Qed.

Lemma frames_try_except {A} (body : M A) (handler : exn → M A) :
  frames R body → (∀ e, frames R (handler e)) → frames R (try_except body handler).
Proof using Htrans.
  intros Hm Hk s. specialize (Hm s). unfold final, try_except in *.
  destruct (body s) as [[[a|e| |] s1] o1]; simpl in *; try done.
  specialize (Hk e s1). unfold final in Hk.
  destruct (handler e s1) as [[c s2] o2]; simpl in *. by transitivity s1.
Qed.

Lemma frames_within {A} (c : Container) (body : M A) :
  frames R body → frames R (within c body).
Proof.
  intros Hm s. specialize (Hm s). unfold final, within in *.
  by destruct (body s) as [[r s1] o1].
Qed.

Lemma frames_for_each {A} (l : list A) (body : A → M unit) :
  (∀ x, frames R (body x)) → frames R (for_each l body).
Proof using Hrefl Htrans.
  intros Hb. induction l as [|x l IH].
  - apply frames_ret.
  - change (for_each (x :: l) body) with (body x ≫= λ _, for_each l body).
    apply frames_bind; [apply Hb | intros _; apply IH].
Qed.

Lemma frames_setitem (upd : SessionState → SessionState) :
  (∀ s, R s {| session := upd (session s); world := world s |}) →
  frames R (setitem upd).
Proof. intros H s. apply H. Qed.

Lemma frames_put_world (w : World) :
  (∀ s, R s {| session := session s; world := w |}) → frames R (put_world w).
Proof. intros H s. apply H. Qed.

End Frames.

#[export] Instance same_world_refl : Reflexive same_world.
Proof. by intros s. Qed.
#[export] Instance same_world_trans : Transitive same_world.
Proof. unfold same_world. intros s1 s2 s3 H1 H2. congruence. Qed.
#[export] Instance same_session_refl : Reflexive same_session.
Proof. by intros s. Qed.
#[export] Instance same_session_trans : Transitive same_session.
Proof. unfold same_session. intros s1 s2 s3 H1 H2. congruence. Qed.
#[export] Instance same_status_refl : Reflexive same_status.
Proof. by intros s. Qed.
#[export] Instance same_status_trans : Transitive same_status.
Proof. unfold same_status. intros s1 s2 s3 H1 H2. congruence. Qed.

Ltac frame :=
  repeat first [ progress intros |
    lazymatch goal with
    | |- frames _ (mbind _ _) => apply frames_bind; [typeclasses eauto| |]
    | |- frames _ (try_except _ _) => apply frames_try_except; [typeclasses eauto| |]
    | |- frames _ (within _ _) => apply frames_within
    | |- frames _ (for_each _ _) => apply frames_for_each; [typeclasses eauto..|]
    | |- frames _ (mret _) => apply frames_ret; typeclasses eauto
    | |- frames _ (raise _) => apply frames_raise; typeclasses eauto
    | |- frames _ st_rerun => apply frames_rerun; typeclasses eauto
    | |- frames _ get_session => apply frames_get_session; typeclasses eauto
    | |- frames _ get_world => apply frames_get_world; typeclasses eauto
    | |- frames _ (emit _) => apply frames_emit; typeclasses eauto
    | |- frames _ (setitem _) => apply frames_setitem
    | |- frames _ (put_world _) => apply frames_put_world
    | |- frames _ (match ?x with _ => _ end) => destruct x
    end ].

Ltac unfold_pages :=
  unfold user_page, admin_page, document_row, check_password, list_documents,
    os_listdir, load_document, read_file, write_file, os_remove, render_message,
    generate_response, generate_content, response_resolve, get_text,
    chat_history_append, getitem, draw, draw_sidebar;
  widgets; unfold draw, draw_sidebar.

Lemma user_page_same_world i : frames same_world (user_page i).
Proof. unfold_pages. frame; done. Qed.

Lemma user_page_same_status i : frames same_status (user_page i).
Proof. unfold_pages. frame; done. Qed.

Lemma admin_page_same_session i : frames same_session (admin_page i).
Proof. unfold_pages. frame; done. Qed.

Lemma check_password_same_world i : frames same_world (check_password i).
Proof. unfold_pages. frame; done. Qed.

Lemma init_document_storage_session s :
  session (final init_document_storage s) = session s.
Proof.
  unfold init_document_storage, os_path_exists, os_makedirs. run.
  by case_bool_decide.
Qed.

Lemma list_documents_pure s : ∃ c, list_documents s = (c, s, []).
Proof.
  unfold list_documents, os_listdir. run. destruct (fs (world s) !! _); run; eauto.
Qed.

Lemma load_document_pure p s :
  ∃ r o, load_document p s = (Ret r, s, o) ∧ remote_calls o = [].
Proof.
  unfold load_document, read_file. run.
  destruct (io_fault _ _); run; eauto.
  destruct (fs (world s) !! p.1) as [dir|]; simpl; [destruct (dir !! p.2)|]; run; eauto.
Qed.

Lemma generate_response_pure q m d sp s :
  ∃ a, generate_response q m d sp s
         = (Ret a, s, out (generate_response q m d sp) s).
Proof.
  destruct (generate_response_returns q m d sp s) as [a Ha].
  exists a. rewrite (generate_response_world q m d sp s s eq_refl). by rewrite Ha.
Qed.

Ltac user_page_cases i s :=
  unfold user_page, within; widgets; run;
  destruct (list_documents_pure s) as [[?docs|?| |] ->]; simpl;
  try match goal with
  | |- context [truthy (choose ?l ?v)] => destruct (truthy (choose l v)) eqn:Hpick
  end; simpl;
  try match goal with
  | |- context [load_document ?p s] =>
      destruct (load_document_pure p s) as ([?d|] & ?oload & -> & ?Hload)
  end; simpl.

Ltac render_all :=
  match goal with
  | |- context [for_each ?l render_message ?s1] =>
      destruct (render_history l s1) as (?o & -> & ?Ho)
  end.

Lemma user_page_transcript i s h :
  chat_history (session s) = Some h →
  chat_history (session (final (user_page i) s)) = Some h ∨
  ∃ a, a ≠ EmptyString ∧
       chat_history (session (final (user_page i) s))
         = Some (h ++ asked (text i "prompt_input") a).
Proof.
  intros Hh.
  cut (∀ s', final (user_page i) s = s' →
         chat_history (session s') = Some h ∨
         ∃ a, a ≠ EmptyString ∧
              chat_history (session s') = Some (h ++ asked (text i "prompt_input") a));
    [by eauto|].
  user_page_cases i s; try (by intros s' <-; left).
  destruct (truthy (text i "prompt_input")) eqn:Hq; simpl.
  2:{ unfold set_document_data. simpl. rewrite Hh. simpl. render_all.
      by intros s' <-; left. }
  unfold set_document_data. simpl.
  destruct (model (session s)) as [m|] eqn:Hm; simpl; [|by intros s' <-; left].
  match goal with
  | |- context [generate_response ?q ?m ?d ?sp ?s1] =>
      destruct (generate_response_pure q m d sp s1) as [a ->]
  end. simpl.
  destruct a as [[|c t]|]; simpl.
  - rewrite Hh. simpl. render_all. by intros s' <-; left.
  - unfold chat_history_append. run. rewrite Hh. simpl. render_all.
    intros s' <-. right. exists (String c t). split; [done|]. simpl.
    unfold asked. by rewrite <- app_assoc.
  - rewrite Hh. simpl. render_all. by intros s' <-; left.
Qed.

Lemma script_run i s :
  truthy (environ (world s) !! API_KEY) = true →
  script i s =
    (returns (main_app_flow i) (started s), final (main_app_flow i) (started s),
     Configure (environ (world s) !! API_KEY) :: out (main_app_flow i) (started s)).
Proof.
  intros H. unfold started, script, returns, final, out, mbind, M_bind.
  rewrite (configure_api_key_present s H).
  destruct (init_session_state_run s) as (ss & -> & Hss). simpl.
  destruct (init_document_storage_run {| session := ss; world := world s |}) as (w & ->).
  simpl. by destruct (main_app_flow i _) as [[c s2] o2].
Qed.

Lemma script_final i s :
  final (script i) s =
    if truthy (environ (world s) !! API_KEY)
    then final (main_app_flow i) (started s) else s.
Proof.
  destruct (truthy _) eqn:H.
  - unfold final at 1. by rewrite script_run.
  - unfold final. by rewrite script_halts.
Qed.

Lemma main_app_flow_final i s :
  final (main_app_flow i) s =
    if String.eqb (page i) "Admin Side"
    then match returns (check_password i) s with
         | Ret true => final (admin_page i) (final (check_password i) s)
         | _ => final (check_password i) s
         end
    else final (user_page i) s.
Proof.
  unfold main_app_flow, page, PAGES. widgets. run.
  destruct (String.eqb _ _).
  - destruct (check_password i s) as [[[[|]| | |] s1] o1]; simpl; try done.
    by destruct (admin_page i s1) as [[c s2] o2].
  - by destruct (user_page i s) as [[c s2] o2].
Qed.

Lemma started_session s :
  model (session (started s))
    = Some (default {| model_name := MODEL_NAME |} (model (session s))) ∧
  chat_history (session (started s)) = Some (default [] (chat_history (session s))) ∧
  authentication_status (session (started s))
    = Some (default None (authentication_status (session s))) ∧
  document_data (session (started s)) = document_data (session s).
Proof.
  unfold started. rewrite init_document_storage_session.
  unfold init_session_state. run. destruct s as [[m h a d] w]; simpl.
  by destruct m, h, a.
Qed.

Lemma started_world s :
  world (started s) =
    if bool_decide (is_Some (fs (world s) !! UPLOAD_FOLDER)) then world s
    else set_fs (<[UPLOAD_FOLDER := ∅]> (fs (world s))) (world s).
Proof.
  unfold started.
  assert (world (final init_session_state s) = world s) as Hw.
  { destruct (init_session_state_run s) as (ss & H & _). unfold final. by rewrite H. }
  unfold init_document_storage, os_path_exists, os_makedirs. run. rewrite Hw.
  case_bool_decide; simpl; [done|]. by rewrite Hw.
Qed.


Lemma check_password_session i s :
  chat_history (session (final (check_password i) s)) = chat_history (session s) ∧
  model (session (final (check_password i) s)) = model (session s) ∧
  document_data (session (final (check_password i) s)) = document_data (session s).
Proof.
  unfold check_password. widgets. run.
  destruct (authentication_status (session s)) as [[[|]|]|]; simpl; try done.
  destruct (clicked i "Login"); simpl; try done.
  by destruct (_ && _).
Qed.

Lemma admin_branch_session i s :
  let s' := match returns (check_password i) s with
            | Ret true => final (admin_page i) (final (check_password i) s)
            | _ => final (check_password i) s
            end in
  chat_history (session s') = chat_history (session s) ∧
  model (session s') = model (session s) ∧
  document_data (session s') = document_data (session s).
Proof.
  simpl. destruct (check_password_session i s) as (H1 & H2 & H3).
  destruct (returns (check_password i) s) as [[|]| | |]; try done.
  by rewrite (admin_page_same_session i (final (check_password i) s)).
Qed.

(** X2.  A run of the script leaves the transcript as it was or appends
    exactly one pair to it: the question in the input box as a user message,
    then a non-empty answer as a model message.  Earlier messages are never
    changed or removed, on any page and for any reply of the endpoint. *)
Theorem run_appends_one_pair i s h :
  chat_history (session s) = Some h →
  chat_history (session (final (script i) s)) = Some h ∨
  ∃ a, a ≠ EmptyString ∧
       chat_history (session (final (script i) s))
         = Some (h ++ [ {| role := "user"; content := text i "prompt_input" |};
                        {| role := "model"; content := a |} ]).
Proof.
  intros Hh. rewrite script_final. destruct (truthy _); [|by left].
  assert (chat_history (session (started s)) = Some h) as Hs.
  { destruct (started_session s) as (_ & -> & _). by rewrite Hh. }
  rewrite main_app_flow_final. destruct (String.eqb _ _).
  - left. destruct (admin_branch_session i (started s)) as [-> _]. done.
  - by apply user_page_transcript.
Qed.

Lemma run_appends_one_pair_witness :
  let i := asks "tariff.pdf" "What are the charges?" in
  let s := example_store None (answers "42 rupees") in
  chat_history (session (final (script i) s)) = Some [] ∨
  ∃ a, a ≠ EmptyString ∧
       chat_history (session (final (script i) s))
         = Some ([] ++ [ {| role := "user"; content := text i "prompt_input" |};
                         {| role := "model"; content := a |} ]).
Proof.
  intros i s. apply (run_appends_one_pair i s []). reflexivity.
Defined.

(** X3.  No run changes a decided login: a session that is Authenticated
    stays Authenticated (there is no logout), and one that is Rejected stays
    Rejected, whatever the page and the inputs of the run. *)
Theorem status_is_final i s a :
  auth_state (session s) = Some a →
  a ≠ Unauthenticated →
  auth_state (session (final (script i) s)) = Some a.
Proof.
  intros Ha Hne. rewrite script_final. destruct (truthy _); [|done].
  assert (auth_state (session (started s)) = Some a) as Hs.
  { unfold auth_state in *. destruct (started_session s) as (_ & _ & -> & _).
    by destruct (authentication_status (session s)). }
  rewrite main_app_flow_final. destruct (String.eqb _ _).
  - assert (auth_state (session (final (check_password i) (started s))) = Some a) as Hc.
    { rewrite (check_password_step i _ a Hs). by destruct a. }
    destruct (returns (check_password i) (started s)) as [[|]| | |]; try done.
    unfold auth_state. rewrite (admin_page_same_session i _). exact Hc.
  - unfold auth_state. rewrite (user_page_same_status i (started s)). exact Hs.
Qed.

Lemma status_is_final_witness :
  let i := logs_in "admin" "password123" in
  let s := example_store (Some false) (answers "ok") in
  auth_state (session (final (script i) s)) = Some Rejected.
Proof.
  intros i s. apply (status_is_final i s Rejected); [reflexivity | discriminate].
Defined.

(** X4.  Once the upload folder exists, a run changes nothing outside the
    session unless it is an Admin Side run of an Authenticated session: the
    User Side and the login form never write or remove a file. *)
Theorem documents_change_only_by_admin i s :
  is_Some (fs (world s) !! UPLOAD_FOLDER) →
  auth_state (session s) ≠ Some Authenticated ∨ page i ≠ "Admin Side" →
  world (final (script i) s) = world s.
Proof.
  intros Hdir Hor. rewrite script_final. destruct (truthy _); [|done].
  assert (world (started s) = world s) as Hw.
  { rewrite started_world. by rewrite bool_decide_eq_true_2. }
  rewrite main_app_flow_final.
  destruct (String.eqb_spec (page i) "Admin Side") as [Hp|Hp].
  - destruct Hor as [Hna|]; [|done].
    pose proof (check_password_true i (started s)) as Ht.
    rewrite <- Hw.
    destruct (returns (check_password i) (started s)) as [[|]| | |];
      try apply (check_password_same_world i (started s)).
    destruct Hna. specialize (Ht eq_refl).
    unfold auth_state in *. destruct (started_session s) as (_ & _ & Hs & _).
    rewrite Hs in Ht. by destruct (authentication_status (session s)) as [[[|]|]|].
  - rewrite <- Hw. apply (user_page_same_world i (started s)).
Qed.

Lemma documents_change_only_by_admin_witness :
  let i := uploads {| name := "x.pdf"; file_data := [x00] |} in
  let s := example_store (Some false) (answers "ok") in
  world (final (script i) s) = world s.
Proof.
  intros i s. apply (documents_change_only_by_admin i s).
  - vm_compute. eauto.
  - left. discriminate.
Defined.
















(** *** Deleting *)

Lemma delete_key_inj (f g : string) : "delete_" +:+ f = "delete_" +:+ g → f = g.
Proof. simpl. intros H. by simplify_eq. Qed.










(** X18.  [generate_response] never raises and never changes the store.  When
    it returns a string it draws nothing and has sent at most one request;
    when it returns [None] it has sent exactly one request and drawn exactly
    one message after it, the block warning or the generation error. *)
Theorem generate_response_contained q m d sp s :
  ∃ a o, generate_response q m d sp s = (Ret a, s, o) ∧
    match a with
    | Some _ =>
        o = [] ∨ ∃ bytes, d = Some bytes ∧ o = [GenerateContent (model_name m) (request q bytes sp)]
    | None =>
        ∃ bytes msg, d = Some bytes ∧
          o = [GenerateContent (model_name m) (request q bytes sp); msg] ∧
          ((∃ reason, msg = blocked_warning reason) ∨ (∃ e, msg = generation_error e))
    end.
Proof.
  unfold generate_response, request, blocked_warning, generation_error.
  destruct d as [[|b d]|]; run; try (by eexists _, _; split; [done|]; left).
  destruct (endpoint _ _ _) as [e|r]; run.
  { eexists _, _. split; [done|]. eexists _, _. split; [done|]. split; [done|]. eauto. }
  destruct (resolve r) as [e|]; run.
  { eexists _, _. split; [done|]. eexists _, _. split; [done|]. split; [done|]. eauto. }
  destruct (prompt_feedback r) as [[[reason|]]|]; run.
  - eexists _, _. split; [done|]. eexists _, _. split; [done|]. split; [done|]. eauto.
  - destruct (response_text r) as [e|t]; run.
    + eexists _, _. split; [done|]. eexists _, _. split; [done|]. split; [done|]. eauto.
    + eexists _, _. split; [done|]. right. eauto.
  - destruct (response_text r) as [e|t]; run.
    + eexists _, _. split; [done|]. eexists _, _. split; [done|]. split; [done|]. eauto.
    + eexists _, _. split; [done|]. right. eauto.
Qed.

(** X19.  A block reason wins over the text: when the response carries a
    block reason, the warning is drawn and [None] is returned without the
    response text being read, even if the response has one. *)
Theorem blocked_text_withheld q m b d sp s r reason :
  endpoint (world s) (model_name m) (request q (b :: d) sp) = inr r →
  resolve r = None →
  prompt_feedback r = Some {| block_reason := Some reason |} →
  generate_response q m (Some (b :: d)) sp s =
    (Ret None, s,
     [GenerateContent (model_name m) (request q (b :: d) sp); blocked_warning reason]).
Proof.
  intros He Hr Hf. unfold generate_response, request, blocked_warning in *. run.
  rewrite He. run. rewrite Hr. run. by rewrite Hf.
Qed.

Lemma blocked_text_withheld_witness :
  let s := example_store None (blocked_with_text "SAFETY" "the answer") in
  generate_response "What?" gemini (Some tariff) (Some SYSTEM_PROMPT) s =
    (Ret None, s,
     [GenerateContent MODEL_NAME (request "What?" tariff (Some SYSTEM_PROMPT));
      blocked_warning "SAFETY"]).
Proof.
  intros s.
  apply (blocked_text_withheld "What?" gemini x25 [x50; x44; x46] (Some SYSTEM_PROMPT) s
           {| resolve := None;
              prompt_feedback := Some {| block_reason := Some "SAFETY" |};
              response_text := inr "the answer" |} "SAFETY"); reflexivity.
Defined.

(** X13.  [load_document] never raises and never changes the store.  It
    returns the stored bytes, drawing nothing, exactly when the file exists
    and can be opened; otherwise it returns [None] and draws one
    "Error loading document: ..." message with the text of the exception. *)
Theorem load_document_reports p s :
  (∃ d, fs (world s) !! p.1 ≫= (.!! p.2) = Some d ∧
        io_fault (world s) (open_rb p) = None ∧
        load_document p s = (Ret (Some d), s, [])) ∨
  (∃ e, (io_fault (world s) (open_rb p) = Some e ∨
         io_fault (world s) (open_rb p) = None ∧
         fs (world s) !! p.1 ≫= (.!! p.2) = None) ∧
        load_document p s =
          (Ret None, s, [Draw MainArea (st.error ("Error loading document: " +:+ e))])).
Proof.
  unfold load_document, read_file. run.
  destruct (io_fault _ _) as [e|]; run; [right; eauto|].
  destruct (fs (world s) !! p.1) as [dir|]; simpl; [destruct (dir !! p.2)|]; run;
    [left; eauto | right; eauto | right; eauto].
Qed.

Lemma user_page_loaded i s d :
  loads i s d →
  question_box ∈ out (user_page i) s ∧
  document_data (session (final (user_page i) s)) = Some (Some d).
Proof.
  intros (dir & Hdir & Hsel & Hpdf & Hd & Hio).
  assert (selected i ∈ filter (λ f, endswith f ".pdf") (elements (dom dir))) as Hin.
  { apply list_elem_of_filter. split; [by rewrite Hpdf|].
    apply elem_of_elements, elem_of_dom. eauto. }
  cut (∀ r, user_page i s = r →
         question_box ∈ r.2 ∧ document_data (session r.1.2) = Some (Some d));
    [intros H; by apply H|].
  unfold user_page, within, question_box. widgets. run.
  rewrite (list_documents_run s dir Hdir). simpl.
  rewrite (choose_listed _ _ Hin).
  rewrite (truthy_nonempty _ Hsel).
  rewrite (load_document_run s UPLOAD_FOLDER (selected i) dir d Hdir Hd Hio). simpl.
  assert (∀ o2,
            question_box ∈
              Draw MainArea (st.title "User Side - PGVCL Smart Assistant")
              :: Draw Sidebar (st.subheader "Document Selection")
              :: Draw Sidebar (st.selectbox "Select a PGVCL Document:"
                   (EmptyString :: filter (λ f, endswith f ".pdf") (elements (dom dir))))
              :: question_box :: o2) as Hfin.
  { intros o2. do 3 apply list_elem_of_further. apply list_elem_of_here. }
  unfold question_box in Hfin.
  destruct (truthy (text i "prompt_input")) eqn:Hq; simpl;
    unfold set_document_data; simpl.
  2:{ destruct (chat_history (session s)) as [h|]; simpl;
        [render_all|]; intros r <-; simpl; (split; [apply Hfin | done]). }
  destruct (model (session s)) as [m|] eqn:Hm; simpl;
    [|intros r <-; simpl; (split; [apply Hfin | done])].
  match goal with
  | |- context [generate_response ?q ?m ?d ?sp ?s1] =>
      destruct (generate_response_pure q m d sp s1) as [a ->]
  end. simpl.
  destruct a as [[|c t]|]; simpl;
    try (destruct (chat_history (session s)) as [h|]; simpl;
         [render_all|]; intros r <-; simpl; (split; [apply Hfin | done])).
Qed.

Ltac not_drawn :=
  let H := fresh in
  intros H;
  repeat (apply elem_of_cons in H as [H|H]; [discriminate H|]);
  by apply elem_of_nil in H.

Lemma user_page_not_loaded i s :
  (∀ d, ¬ loads i s d) → question_box ∉ out (user_page i) s.
Proof.
  intros Hno. unfold user_page, within, question_box. widgets. run.
  destruct (fs (world s) !! UPLOAD_FOLDER) as [dir|] eqn:Hdir.
  2:{ unfold list_documents, os_listdir. run. rewrite Hdir. simpl.
      not_drawn. }
  rewrite (list_documents_run s dir Hdir). simpl.
  set (docs := filter (λ f, endswith f ".pdf") (elements (dom dir))).
  destruct (truthy (choose (EmptyString :: docs) (selected i))) eqn:Hsel; simpl.
  2:{ unfold set_document_data. simpl.
      not_drawn. }
  assert (choose (EmptyString :: docs) (selected i) = selected i ∧
          selected i ≠ EmptyString ∧ selected i ∈ docs) as (Hc & Hne & Hin).
  { unfold choose in *. case_decide as Hin; simpl in *; [|done].
    assert (selected i ≠ EmptyString) as Hne by (by destruct (selected i)).
    apply elem_of_cons in Hin as [Hin|Hin]; done. }
  rewrite Hc. apply list_elem_of_filter in Hin as [Hpdf Hdom].
  apply elem_of_elements, elem_of_dom in Hdom as [d Hd].
  destruct (io_fault (world s) (open_rb (os_path_join UPLOAD_FOLDER (selected i))))
    as [e|] eqn:Hio.
  - unfold load_document, read_file, os_path_join in *. run. rewrite Hio. simpl.
    not_drawn.
  - destruct (Hno d). exists dir. repeat split; try done.
    by destruct (endswith _ _).
Qed.

(** X15.  The question input is drawn exactly in the runs that load a
    document: whenever the picker is on the empty entry, the file cannot be
    read or the folder is missing, the input is absent. *)
Theorem question_box_iff_loaded i s :
  question_box ∈ out (user_page i) s ↔ ∃ d, loads i s d.
Proof.
  split.
  - intros Hbox.
    destruct (fs (world s) !! UPLOAD_FOLDER) as [dir|] eqn:Hdir.
    2:{ destruct (user_page_not_loaded i s); [|done].
        intros d (dir & Hd & _). congruence. }
    destruct (dir !! selected i) as [d|] eqn:Hd.
    2:{ destruct (user_page_not_loaded i s); [|done].
        intros d (dir' & Hdir' & _ & _ & Hd' & _). congruence. }
    exists d. exists dir. split; [done|].
    assert (∀ P : Prop, (¬ P → False) → Decision P → P) as Hdec
      by (intros P HP [|]; tauto).
    assert ((selected i ≠ EmptyString ∧ endswith (selected i) ".pdf" = true ∧
             io_fault (world s) (open_rb (os_path_join UPLOAD_FOLDER (selected i))) = None))
      as (? & ? & ?); [|done].
    apply Hdec; [|apply _].
    intros Hnot. destruct (user_page_not_loaded i s); [|done].
    intros d' (dir' & Hdir' & H1 & H2 & Hd' & H3). by apply Hnot.
  - intros [d Hd]. by apply (user_page_loaded i s d).
Qed.

#[export] Instance same_model_refl : Reflexive same_model.
Proof. by intros s. Qed.
#[export] Instance same_model_trans : Transitive same_model.
Proof. unfold same_model. intros s1 s2 s3 H1 H2. congruence. Qed.

Lemma user_page_same_model i : frames same_model (user_page i).
Proof. unfold_pages. frame; done. Qed.







Lemma out_bind {A B} (m : M A) (k : A → M B) s :
  out (m ≫= k) s =
    out m s ++ match returns m s with
               | Ret a => out (k a) (final m s)
               | _ => []
               end.
Proof.
  unfold out, returns, final, mbind, M_bind.
  destruct (m s) as [[[a|e| |] s1] o1]; simpl; try (by rewrite app_nil_r).
  by destruct (k a s1) as [[c s2] o2].
Qed.

Lemma admin_page_out i s :
  ∃ rest, out (admin_page i) s =
    Draw MainArea (st.title "Admin Side - Document Management")
    :: upload_control :: rest.
Proof.
  unfold admin_page. rewrite out_bind. simpl. rewrite out_bind. simpl. eauto.
Qed.

Lemma started_environ s : environ (world (started s)) = environ (world s).
Proof. rewrite started_world. by case_bool_decide. Qed.

Lemma admin_side_out i s :
  truthy (environ (world s) !! API_KEY) = true →
  page i = "Admin Side" →
  auth_state (session (started s)) = Some Authenticated →
  ∃ rest, out (script i) s =
    Configure (environ (world s) !! API_KEY)
    :: Draw MainArea (st.set_page_config PAGE_TITLE ":bulb:" "wide")
    :: Draw Sidebar (st.radio "Select Page:" ["User Side"; "Admin Side"])
    :: Draw MainArea (st.title "Admin Side - Document Management")
    :: upload_control :: rest.
Proof.
  intros Hkey Hpage Ha. unfold out at 1. rewrite script_run by done. cbn [snd].
  unfold main_app_flow. rewrite out_bind. simpl. rewrite out_bind. simpl.
  unfold page, PAGES in Hpage. rewrite Hpage. simpl.
  rewrite out_bind. widgets. run.
  rewrite (check_password_authenticated i (started s) Ha). simpl.
  destruct (admin_page_out i (started s)) as [rest Hrest]. unfold out in Hrest.
  rewrite Hrest. eauto.
Qed.

(** X6.  An Authenticated session that selects the Admin Side is shown the
    admin screen: the run draws the admin title and the upload control right
    after the page selector (and no login form). *)
Theorem authenticated_reaches_admin i s :
  truthy (environ (world s) !! API_KEY) = true →
  page i = "Admin Side" →
  auth_state (session s) = Some Authenticated →
  ∃ rest, out (script i) s =
    Configure (environ (world s) !! API_KEY)
    :: Draw MainArea (st.set_page_config PAGE_TITLE ":bulb:" "wide")
    :: Draw Sidebar (st.radio "Select Page:" ["User Side"; "Admin Side"])
    :: Draw MainArea (st.title "Admin Side - Document Management")
    :: upload_control :: rest.
Proof.
  intros Hkey Hpage Ha. apply admin_side_out; try done.
  unfold auth_state in *. destruct (started_session s) as (_ & _ & -> & _).
  by destruct (authentication_status (session s)) as [[[|]|]|].
Qed.

Lemma authenticated_reaches_admin_witness :
  let i := uploads {| name := "x.pdf"; file_data := [] |} in
  let s := example_store (Some true) (answers "ok") in
  ∃ rest, out (script i) s =
    Configure (environ (world s) !! API_KEY)
    :: Draw MainArea (st.set_page_config PAGE_TITLE ":bulb:" "wide")
    :: Draw Sidebar (st.radio "Select Page:" ["User Side"; "Admin Side"])
    :: Draw MainArea (st.title "Admin Side - Document Management")
    :: upload_control :: rest.
Proof.
  intros i s. apply (authenticated_reaches_admin i s); reflexivity.
Defined.

Lemma check_password_logs_in i s :
  authentication_status (session s) = Some None →
  clicked i "Login" = true →
  credentials_match i = true →
  check_password i s =
    (RerunException,
     {| session := set_authentication_status (Some true) (session s); world := world s |},
     [ Draw Sidebar (st.text_input "Username" false);
       Draw Sidebar (st.text_input "Password" true);
       Draw Sidebar (st.button "Login" "Login");
       Draw Sidebar (st.success "Logged in as admin") ]).
Proof.
  intros Hs Hc Hm. unfold check_password. widgets. run.
  rewrite Hs. simpl. rewrite Hc, credentials_match_eqb, Hm. done.
Qed.

(** X7.  Logging in works across the rerun: on the Admin Side of a session
    that has not attempted a login, pressing Login with the configured
    credentials ends the run with [st.rerun()] before the upload control is
    drawn, and the next Admin Side run draws it. *)
Theorem login_then_admin i j s :
  truthy (environ (world s) !! API_KEY) = true →
  default None (authentication_status (session s)) = None →
  page i = "Admin Side" →
  clicked i "Login" = true →
  credentials_match i = true →
  page j = "Admin Side" →
  returns (script i) s = RerunException ∧
  (upload_control ∉ out (script i) s) ∧
  upload_control ∈ out (script j) (final (script i) s).
Proof.
  intros Hkey Hs Hpi Hc Hm Hpj.
  assert (authentication_status (session (started s)) = Some None) as Hst.
  { destruct (started_session s) as (_ & _ & -> & _). by rewrite Hs. }
  pose proof (check_password_logs_in i (started s) Hst Hc Hm) as Hcp.
  set (s1 := {| session := set_authentication_status (Some true) (session (started s));
                world := world (started s) |}) in *.
  assert (script i s =
    (RerunException, s1,
     [ Configure (environ (world s) !! API_KEY);
       Draw MainArea (st.set_page_config PAGE_TITLE ":bulb:" "wide");
       Draw Sidebar (st.radio "Select Page:" ["User Side"; "Admin Side"]);
       Draw Sidebar (st.text_input "Username" false);
       Draw Sidebar (st.text_input "Password" true);
       Draw Sidebar (st.button "Login" "Login");
       Draw Sidebar (st.success "Logged in as admin") ])) as Hrun.
  { rewrite script_run by done. unfold returns, final, out, main_app_flow.
    widgets. run. unfold page, PAGES in Hpi. rewrite Hpi. simpl. by rewrite Hcp. }
  unfold returns, final. unfold out at 1. rewrite Hrun. cbn [fst snd].
  split; [done|]. split; [unfold upload_control; not_drawn|].
  destruct (admin_side_out j s1) as [rest ->]; try done.
  - unfold s1. simpl. by rewrite started_environ.
  - unfold auth_state. by destruct (started_session s1) as (_ & _ & -> & _).
  - do 4 apply list_elem_of_further. apply list_elem_of_here.
Qed.

Lemma login_then_admin_witness :
  let i := logs_in "admin" "password123" in
  let j := uploads {| name := "x.pdf"; file_data := [] |} in
  let s := {| session := fresh_session; world := example_world (answers "ok") |} in
  returns (script i) s = RerunException ∧
  (upload_control ∉ out (script i) s) ∧
  upload_control ∈ out (script j) (final (script i) s).
Proof.
  intros i j s. apply (login_then_admin i j s); reflexivity.
Defined.

Lemma render_message_eq m s : render_message m s = (Ret tt, s, [rendered m]).
Proof. unfold render_message, rendered. by destruct (String.eqb _ _). Qed.

Lemma render_transcript h s :
  for_each h render_message s = (Ret tt, s, rendered <$> h).
Proof.
  induction h as [|m h IH]; [done|].
  by rewrite for_each_cons, render_message_eq, IH.
Qed.

(** X16.  With a document loaded, the run ends by drawing the "Chat
    History" header followed by one markdown element per message of the
    transcript as the run leaves it, in order: an answer is shown in the run
    that produced it. *)
Theorem transcript_rendered i s m h d :
  model (session s) = Some m →
  chat_history (session s) = Some h →
  loads i s d →
  ∃ before h',
    chat_history (session (final (user_page i) s)) = Some h' ∧
    out (user_page i) s =
      before ++ Draw MainArea (st.subheader "Chat History") :: (rendered <$> h').
Proof.
  intros Hm Hh (dir & Hdir & Hsel & Hpdf & Hd & Hio).
  assert (selected i ∈ filter (λ f, endswith f ".pdf") (elements (dom dir))) as Hin.
  { apply list_elem_of_filter. split; [by rewrite Hpdf|].
    apply elem_of_elements, elem_of_dom. eauto. }
  cut (∀ r, user_page i s = r →
         ∃ before h', chat_history (session r.1.2) = Some h' ∧
           r.2 = before ++ Draw MainArea (st.subheader "Chat History") :: (rendered <$> h'));
    [intros H; by apply H|].
  unfold user_page, within. widgets. run.
  rewrite (list_documents_run s dir Hdir). simpl.
  rewrite (choose_listed _ _ Hin).
  rewrite (truthy_nonempty _ Hsel).
  rewrite (load_document_run s UPLOAD_FOLDER (selected i) dir d Hdir Hd Hio). simpl.
  destruct (truthy (text i "prompt_input")) eqn:Hq; simpl;
    unfold set_document_data; simpl.
  2:{ rewrite Hh. simpl. rewrite render_transcript. intros r <-. simpl.
      eexists [_; _; _; _], h. split; [done|]. done. }
  rewrite Hm. simpl.
  match goal with
  | |- context [generate_response ?q ?m ?d ?sp ?s1] =>
      destruct (generate_response_pure q m d sp s1) as [a ->]
  end. simpl.
  destruct a as [[|c t]|]; simpl.
  - rewrite Hh. simpl. rewrite render_transcript. intros r <-. simpl.
    eexists (_ :: _ :: _ :: _ :: _ :: out (generate_response _ _ _ _) _), h.
    split; [done|]. simpl. by rewrite app_nil_r.
  - unfold chat_history_append. run. rewrite Hh. simpl.
    rewrite render_transcript. intros r <-. simpl.
    eexists (_ :: _ :: _ :: _ :: _ :: out (generate_response _ _ _ _) _), _.
    split; [done|]. simpl. by rewrite app_nil_r.
  - rewrite Hh. simpl. rewrite render_transcript. intros r <-. simpl.
    eexists (_ :: _ :: _ :: _ :: _ :: out (generate_response _ _ _ _) _), h.
    split; [done|]. simpl. by rewrite app_nil_r.
Qed.

Lemma transcript_rendered_witness :
  let i := asks "tariff.pdf" "What are the charges?" in
  let s := example_store None (answers "42 rupees") in
  ∃ before h',
    chat_history (session (final (user_page i) s)) = Some h' ∧
    out (user_page i) s =
      before ++ Draw MainArea (st.subheader "Chat History") :: (rendered <$> h').
Proof.
  intros i s. apply (transcript_rendered i s gemini [] tariff).
  - reflexivity.
  - reflexivity.
  - apply example_loads; [vm_compute; reflexivity | discriminate | reflexivity].
Defined.

Lemma question_box_iff_loaded_witness :
  let i := asks "empty.pdf" EmptyString in
  let s := example_store None (answers "ok") in
  question_box ∈ out (user_page i) s.
Proof.
  intros i s. apply (proj2 (question_box_iff_loaded i s)). exists [].
  apply example_loads; [vm_compute; reflexivity | discriminate | reflexivity].
Defined.

(** X5.  The model client is created once per session, for [MODEL_NAME],
    and every later run keeps the client it finds. *)
Theorem model_created_once i s :
  truthy (environ (world s) !! API_KEY) = true →
  model (session (final (script i) s))
    = Some (default {| model_name := MODEL_NAME |} (model (session s))).
Proof.
  intros Hkey. rewrite script_final, Hkey.
  destruct (started_session s) as (Hm & _).
  rewrite main_app_flow_final. destruct (String.eqb _ _).
  - destruct (admin_branch_session i (started s)) as (_ & -> & _). exact Hm.
  - rewrite (user_page_same_model i (started s)). exact Hm.
Qed.

Lemma model_created_once_witness :
  let i := asks EmptyString EmptyString in
  let s := {| session := fresh_session; world := example_world (answers "ok") |} in
  model (session (final (script i) s)) = Some {| model_name := MODEL_NAME |}.
Proof.
  intros i s. apply (model_created_once i s). reflexivity.
Defined.

(** X14.  When the picked document cannot be read, the user page shows both
    error messages in the sidebar (the call is made inside the sidebar
    block), stores [None] as the selected document and shows the hint to
    select a document instead of the question input; nothing else changes. *)
Theorem load_failure_reported i s dir d e :
  fs (world s) !! UPLOAD_FOLDER = Some dir →
  selected i ≠ EmptyString →
  endswith (selected i) ".pdf" = true →
  dir !! selected i = Some d →
  io_fault (world s) (open_rb (os_path_join UPLOAD_FOLDER (selected i))) = Some e →
  user_page i s =
    (Ret tt,
     {| session := set_document_data None (session s); world := world s |},
     [ Draw MainArea (st.title "User Side - PGVCL Smart Assistant");
       Draw Sidebar (st.subheader "Document Selection");
       Draw Sidebar (st.selectbox "Select a PGVCL Document:"
                       (EmptyString :: pdf_entries dir));
       Draw Sidebar (st.error ("Error loading document: " +:+ e));
       Draw Sidebar (st.error "Failed to load selected document.");
       Draw MainArea (st.info
         "Please select a PGVCL document from the sidebar to ask questions about.") ]).
Proof.
  intros Hdir Hsel Hpdf Hd Hio.
  assert (selected i ∈ pdf_entries dir) as Hin.
  { apply list_elem_of_filter. split; [by rewrite Hpdf|].
    apply elem_of_elements, elem_of_dom. eauto. }
  unfold user_page, within, pdf_entries in *. widgets. run.
  rewrite (list_documents_run s dir Hdir). simpl.
  rewrite (choose_listed _ _ Hin).
  rewrite (truthy_nonempty _ Hsel).
  unfold load_document, read_file, os_path_join in *. run. rewrite Hio. by simpl.
Qed.

Lemma load_failure_reported_witness :
  let i := asks "tariff.pdf" "What are the charges?" in
  let w := example_world (answers "ok") in
  let s := {| session := example_session None;
              world := {| environ := environ w; fs := fs w;
                          io_fault := λ _, Some "PermissionError";
                          endpoint := endpoint w |} |} in
  user_page i s =
    (Ret tt,
     {| session := set_document_data None (session s); world := world s |},
     [ Draw MainArea (st.title "User Side - PGVCL Smart Assistant");
       Draw Sidebar (st.subheader "Document Selection");
       Draw Sidebar (st.selectbox "Select a PGVCL Document:"
                       (EmptyString
                        :: pdf_entries {[ "tariff.pdf" := tariff; "empty.pdf" := [] ]}));
       Draw Sidebar (st.error ("Error loading document: " +:+ "PermissionError"));
       Draw Sidebar (st.error "Failed to load selected document.");
       Draw MainArea (st.info
         "Please select a PGVCL document from the sidebar to ask questions about.") ]).
Proof.
  intros i w s.
  apply (load_failure_reported i s _ tariff "PermissionError").
  - vm_compute. reflexivity.
  - discriminate.
  - reflexivity.
  - vm_compute. reflexivity.
  - reflexivity.
Defined.
